(** * remember-me: the persistent resource model, the rule engine, the
    context registry and the backup manager.

    A shallow embedding of [context.py], [backup.py] and the two resource
    handlers of [server.py], with the properties of the specification that
    concern them.

    SQL tables are lists of rows in rowid order; a cursor statement is a
    function on the table it names.  The connection keeps the content of the
    database file apart from the content seen through the connection, so
    that [commit] is a real step.  Python exceptions are an outcome of the
    computation, next to the state at the point of the raise. *)

From stdpp Require Import gmap strings list pretty.
From Stdlib Require Import Strings.Ascii Strings.Byte.

Set Default Proof Using "Type".
Local Open Scope string_scope.

(** ** Python computations: state passing with exceptions *)

Inductive exn :=
  | ResourceError (msg : string)
  | BackupError (msg : string)
  | NotImplementedError
  | IntegrityError (msg : string)
  | KeyError (key : string)
  | ValueError (msg : string)
  | FileNotFoundError
  | IsADirectoryError.

Inductive outcome (A : Type) :=
  | Return (a : A)
  | Raise (e : exn).
Arguments Return {A} a.
Arguments Raise {A} e.

Definition py (S A : Type) : Type := S → outcome A * S.

Definition py_ret {S A} (a : A) : py S A := λ s, (Return a, s).

Definition py_bind {S A B} (m : py S A) (k : A → py S B) : py S B :=
  λ s, match m s with
       | (Return a, s') => k a s'
       | (Raise e, s') => (Raise e, s')
       end.

Definition raise {S A} (e : exn) : py S A := λ s, (Raise e, s).
Definition gets {S A} (f : S → A) : py S A := λ s, (Return (f s), s).
Definition modify {S} (f : S → S) : py S unit := λ s, (Return tt, f s).

Global Instance py_mret {S} : MRet (py S) := λ A, py_ret.
Global Instance py_mbind {S} : MBind (py S) := λ A B k m, py_bind m k.

(** ** String formatting *)

(** [str.capitalize] on ASCII text: first character upper case, the others
    lower case.  It is applied to the class constants only. *)
Definition is_lower (c : ascii) : bool :=
  (97 <=? nat_of_ascii c)%nat && (nat_of_ascii c <=? 122)%nat.
Definition is_upper (c : ascii) : bool :=
  (65 <=? nat_of_ascii c)%nat && (nat_of_ascii c <=? 90)%nat.
Definition upper (c : ascii) : ascii :=
  if is_lower c then ascii_of_nat (nat_of_ascii c - 32) else c.
Definition lower (c : ascii) : ascii :=
  if is_upper c then ascii_of_nat (nat_of_ascii c + 32) else c.
Fixpoint lower_all (s : string) : string :=
  match s with
  | EmptyString => EmptyString
  | String c s' => String (lower c) (lower_all s')
  end.
Definition capitalize (s : string) : string :=
  match s with
  | EmptyString => EmptyString
  | String c s' => String (upper c) (lower_all s')
  end.

(** What an f-string prints for a [str | None] argument. *)
Definition fmt (v : option string) : string :=
  match v with
  | Some s => s
  | None => "None"
  end.

(** ** The store *)

(** A row of [snippet] or [summary]: columns [type], [context], [key] and the
    content column.  The arguments the handlers bind to [key], [type] and
    the content are Python [str]; [context] may be [None], stored as NULL. *)
Record resource_row := ResourceRow {
  r_type : string;
  r_context : option string;
  r_key : string;
  r_content : string
}.

(** A row of [rules]: columns [context], [policy], [rule]. *)
Record rule_row := RuleRow {
  rl_context : option string;
  rl_policy : string;
  rl_rule : string
}.

Global Instance resource_row_eq_dec : EqDecision resource_row.
Proof. solve_decision. Defined.
Global Instance rule_row_eq_dec : EqDecision rule_row.
Proof. solve_decision. Defined.

Inductive table_id := snippet_table | summary_table.

Record store := Store {
  rules : list rule_row;
  snippet : list resource_row;
  summary : list resource_row
}.

Definition table (t : table_id) (s : store) : list resource_row :=
  match t with
  | snippet_table => snippet s
  | summary_table => summary s
  end.

Definition with_table (t : table_id) (rows : list resource_row) (s : store) : store :=
  match t with
  | snippet_table => Store (rules s) rows (summary s)
  | summary_table => Store (rules s) (snippet s) rows
  end.

Definition with_rules (rows : list rule_row) (s : store) : store :=
  Store rows (snippet s) (summary s).

(** The sqlite3 connection: [committed] is what the database file holds,
    [working] what statements on this connection read and write.  INSERT,
    UPDATE and DELETE open a transaction implicitly, [commit] ends it. *)
Record connection := Connection {
  committed : store;
  working : store
}.

Definition commit : py connection unit :=
  modify (λ db, Connection (working db) (working db)).

(** *** SQL comparison *)

(** [col = ?]: never true when either side is NULL. *)
Definition sql_eq (col param : option string) : Prop :=
  is_Some col ∧ col = param.
(** [col IS ?]: equal, or both NULL. *)
Definition sql_is (col param : option string) : Prop :=
  col = param.

Global Instance sql_eq_dec col param : Decision (sql_eq col param).
Proof. unfold sql_eq. apply _. Defined.
Global Instance sql_is_dec col param : Decision (sql_is col param).
Proof. unfold sql_is. apply _. Defined.

(** *** Cursor statements on a table *)

Section statements.
Context {R : Type}.
Variable get_rows : store → list R.
Variable put_rows : list R → store → store.

Definition write_rows (rows : list R) : py connection unit :=
  modify (λ db, Connection (committed db) (put_rows rows (working db))).

(** SELECT ... WHERE [P]; the result of [fetchall]. *)
Definition select (P : R → Prop) `{!∀ r, Decision (P r)} : py connection (list R) :=
  gets (λ db, filter P (get_rows (working db))).

(** UPDATE ... SET [f] WHERE [P]; the result is [rowcount].  A new row
    value that fails the CHECK constraint aborts the statement. *)
Definition update (check : R → Prop) `{!∀ r, Decision (check r)}
    (msg_check : string)
    (P : R → Prop) `{!∀ r, Decision (P r)} (f : R → R)
  : py connection nat :=
  rows ← gets (λ db, get_rows (working db));
  if decide (Forall (λ r, check (f r)) (filter P rows)) then
    write_rows ((λ r, if decide (P r) then f r else r) <$> rows);;
    mret (length (filter P rows))
  else raise (IntegrityError msg_check).

(** DELETE ... WHERE [P]; the result is [rowcount]. *)
Definition delete_where (P : R → Prop) `{!∀ r, Decision (P r)}
  : py connection nat :=
  rows ← gets (λ db, get_rows (working db));
  write_rows (filter (λ r, ¬ P r) rows);;
  mret (length (filter P rows)).

(** INSERT of one row; [conflict] says which stored rows a UNIQUE
    constraint refuses next to the new one, [check] is the CHECK
    constraint.  The result is [rowcount]. *)
Definition insert_row (check : R → Prop) `{!∀ r, Decision (check r)}
    (conflict : R → R → Prop) `{!∀ r r', Decision (conflict r r')}
    (msg_check msg_unique : string) (new : R) : py connection nat :=
  rows ← gets (λ db, get_rows (working db));
  if decide (check new) then
    if decide (Exists (conflict new) rows) then
      raise (IntegrityError msg_unique)
    else
      write_rows (rows ++ [new]);; mret 1
  else raise (IntegrityError msg_check).
End statements.

(** ** context.py *)

Definition ALLOWED_RULE_POLICIES : gset string :=
  {[ "MUST"; "MUST NOT"; "SHOULD"; "SHOULD NOT"; "MAY" ]}.

(** A Python [dict] with [str] keys and [str] values. *)
Abbreviation dict := (gmap string string).

(** The class attributes of a [PersistentResource] subclass.  The source
    interpolates [resource_table] into each statement; here it selects the
    table. *)
Record resource_class := ResourceClass {
  resource_name : string;
  resource_table : table_id
}.

Module PersistentResource.
Section methods.
Variable cls : resource_class.

(** [db_table]: the schema.  UNIQUE(key, context) refuses a second row
    with the same key and the same non-NULL context (SQLite counts
    NULLs as distinct). *)
Definition unique (new r : resource_row) : Prop :=
  r_key r = r_key new ∧ sql_eq (r_context r) (r_context new).
Definition check (r : resource_row) : Prop := True.

Global Instance unique_dec new r : Decision (unique new r).
Proof. unfold unique. apply _. Defined.
Global Instance check_dec r : Decision (check r).
Proof. unfold check. apply _. Defined.

Let rows := table (resource_table cls).
Let put := with_table (resource_table cls).
Let Name := capitalize (resource_name cls).

Definition get (context : option string) (key : string)
  : py connection (string * string) :=
  (* SELECT {resource_name}, type FROM {resource_table}
     WHERE context = ? AND key = ? *)
  found ← select rows (λ r, sql_eq (r_context r) context ∧ r_key r = key);
  match head found with
  | None =>
      raise (ResourceError
        (Name +:+ " (" +:+ fmt context +:+ "/" +:+ key +:+ ") not found"))
  | Some r => mret (r_content r, r_type r)
  end.

Definition remove (context : option string) (key : string)
  : py connection string :=
  (* DELETE FROM {resource_table} WHERE context = ? AND key = ? *)
  affected ← delete_where rows put
    (λ r, sql_eq (r_context r) context ∧ r_key r = key);
  commit;;
  if decide (0 < affected) then
    mret (Name +:+ " '" +:+ fmt context +:+ "/" +:+ key
          +:+ "' removed successfully")
  else
    raise (ResourceError
      (Name +:+ " '" +:+ fmt context +:+ "/" +:+ key +:+ "' not found")).

Definition set (context : option string) (key resource mime_type : string)
  : py connection string :=
  let described :=
    resource_name cls +:+ " (" +:+ fmt context +:+ "/" +:+ key +:+ " "
    +:+ mime_type +:+ ")" in
  (* UPDATE {resource_table} SET type = ?, {resource_name} = ?
     WHERE key = ? AND context IS ? *)
  rowcount ← update rows put check "CHECK constraint failed"
    (λ r, r_key r = key ∧ sql_is (r_context r) context)
    (λ r, ResourceRow mime_type (r_context r) (r_key r) resource);
  if decide (rowcount = 0) then
    (* INSERT INTO {resource_table} (type, key, {resource_name}, context)
       VALUES (?, ?, ?, ?) *)
    rowcount ← insert_row rows put check unique
      "CHECK constraint failed" "UNIQUE constraint failed"
      (ResourceRow mime_type context key resource);
    if decide (rowcount = 0) then
      raise (ResourceError ("Failed to set " +:+ described))
    else
      commit;;
      mret ("New " +:+ described +:+ " added")
  else
    commit;;
    mret ("Existing " +:+ described +:+ " updated").

Definition list (context : option string) (include_content : bool)
  : py connection (Datatypes.list dict) :=
  (* SELECT key, type[, {resource_name}] FROM {resource_table}
     WHERE context = ? *)
  found ← select rows (λ r, sql_eq (r_context r) context);
  mret ((λ r,
           if include_content
           then <[resource_name cls := r_content r]>
                  (<["mime_type" := r_type r]> {["key" := r_key r]})
           else <["mime_type" := r_type r]> {["key" := r_key r]})
        <$> found).
End methods.
End PersistentResource.

Definition Snippet : resource_class := ResourceClass "snippet" snippet_table.
Definition Summary : resource_class := ResourceClass "summary" summary_table.

Module Rule.
Definition resource_name : string := "rule".

(** [db_table]: CHECK(policy IN (...)) and UNIQUE(context, rule). *)
Definition check (r : rule_row) : Prop :=
  rl_policy r ∈ ["MUST"; "MUST NOT"; "SHOULD"; "SHOULD NOT"; "MAY"].
Definition unique (new r : rule_row) : Prop :=
  sql_eq (rl_context r) (rl_context new) ∧ rl_rule r = rl_rule new.

Global Instance check_dec r : Decision (check r).
Proof. unfold check. apply _. Defined.
Global Instance unique_dec new r : Decision (unique new r).
Proof. unfold unique. apply _. Defined.

Definition get (context : option string) (key : string)
  : py connection (string * string) :=
  raise NotImplementedError.

Definition remove (context : option string) (rule : string)
  : py connection string :=
  (* SELECT policy FROM rules WHERE rule = ? AND context IS NULL
     or, with a context,           WHERE rule = ? AND context = ? *)
  found ←
    match context with
    | None => select rules (λ r, rl_rule r = rule ∧ sql_is (rl_context r) None)
    | Some _ => select rules (λ r, rl_rule r = rule ∧ sql_eq (rl_context r) context)
    end;
  match head found with
  | None =>
      raise (ResourceError
        ("Rule '" +:+ rule +:+ "' not found with the specified context"))
  | Some _ =>
      (* DELETE FROM rules WHERE the same condition *)
      rowcount ←
        match context with
        | None =>
            delete_where rules with_rules
              (λ r, rl_rule r = rule ∧ sql_is (rl_context r) None)
        | Some _ =>
            delete_where rules with_rules
              (λ r, rl_rule r = rule ∧ sql_eq (rl_context r) context)
        end;
      if decide (rowcount = 0) then
        raise (ResourceError ("Rule '" +:+ rule +:+ "' not removed"))
      else
        commit;;
        mret ("Rule '" +:+ rule +:+ "' removed successfully")
  end.

Definition set (context : option string) (policy rule : string)
  : py connection string :=
  if decide (policy ∉ ALLOWED_RULE_POLICIES) then
    raise (ResourceError
      ("Invalid policy '" +:+ policy +:+ "'. Must be one of: "
       +:+ "['MAY', 'MUST', 'MUST NOT', 'SHOULD', 'SHOULD NOT']"))
  else
    (* SELECT policy FROM rules WHERE rule = ? AND context IS ? *)
    found ← select rules (λ r, rl_rule r = rule ∧ sql_is (rl_context r) context);
    match head found with
    | Some row =>
        let existing_policy := rl_policy row in
        if decide (existing_policy = policy) then
          raise (ResourceError
            "Rule already exists with the same policy and context")
        else
          (* UPDATE rules SET policy = ? WHERE rule = ? AND context IS ? *)
          update rules with_rules check "CHECK constraint failed: policy"
            (λ r, rl_rule r = rule ∧ sql_is (rl_context r) context)
            (λ r, RuleRow (rl_context r) policy (rl_rule r));;
          commit;;
          mret ("Policy updated from '" +:+ existing_policy +:+ "' to '"
                +:+ policy +:+ "'")
    | None =>
        (* INSERT INTO rules (policy, rule, context) VALUES (?, ?, ?) *)
        insert_row rules with_rules check unique
          "CHECK constraint failed: policy" "UNIQUE constraint failed"
          (RuleRow context policy rule);;
        commit;;
        mret "New rule added"
    end.

Definition list (context : option string) (include_content : bool)
  : py connection (Datatypes.list dict) :=
  (* SELECT policy, rule FROM rules WHERE context = ? *)
  found ← select rules (λ r, sql_eq (rl_context r) context);
  mret ((λ r, <[resource_name := rl_rule r]> {["policy" := rl_policy r]})
        <$> found).
End Rule.

(** The registry.  [db_opened] records whether the cached property [db]
    has been computed, that is whether [create_db] has run. *)
Module MyContext.
Inductive handler :=
  | RuleHandler
  | ResourceHandler (cls : resource_class).

Definition resource_types : list (string * handler) :=
  [("rule", RuleHandler);
   ("snippet", ResourceHandler Snippet);
   ("summary", ResourceHandler Summary)].

Record t := Registry {
  db_opened : bool;
  conn : connection
}.

(** A handler method runs on the registry's connection. *)
Definition on_db {A} (m : py connection A) : py t A :=
  λ my, let '(r, c) := m (conn my) in (r, Registry (db_opened my) c).

(** [create_db]: connect and run each class's [db_table].  CREATE TABLE
    IF NOT EXISTS leaves the rows of an existing table alone, and a table
    that did not exist has no rows. *)
Definition create_db : py t unit :=
  modify (λ my, Registry true (conn my)).

(** The cached property [db]. *)
Definition db : py t unit :=
  opened ← gets db_opened;
  if opened : bool then mret () else create_db.

(** The cached property [resources]: building the handlers reads [db]. *)
Definition resources : py t (gmap string handler) :=
  db;;
  mret (foldl (λ d '(name, resource), <[name := resource]> d) ∅ resource_types).

Definition getitem (key : string) : py t handler :=
  rs ← resources;
  match rs !! key with
  | Some h => mret h
  | None => raise (KeyError key)
  end.
End MyContext.

(** Method dispatch on the handler's class. *)
Definition handler_get (h : MyContext.handler) :=
  match h with
  | MyContext.RuleHandler => Rule.get
  | MyContext.ResourceHandler cls => PersistentResource.get cls
  end.
Definition handler_list (h : MyContext.handler) :=
  match h with
  | MyContext.RuleHandler => Rule.list
  | MyContext.ResourceHandler cls => PersistentResource.list cls
  end.

(** ** server.py: the two resource handlers *)

(** [str.split(sep)] for a one-character separator. *)
Fixpoint split_on (sep : ascii) (s : string) : list string :=
  match s with
  | EmptyString => [EmptyString]
  | String c s' =>
      if decide (c = sep) then EmptyString :: split_on sep s'
      else match split_on sep s' with
           | piece :: pieces => String c piece :: pieces
           | [] => [String c EmptyString]
           end
  end.

(** [sep in s] for a one-character [sep]. *)
Fixpoint contains (sep : ascii) (s : string) : bool :=
  match s with
  | EmptyString => false
  | String c s' => bool_decide (c = sep) || contains sep s'
  end.

Definition known_resource (resource : string) : Prop :=
  resource ∈ MyContext.resource_types.*1.

Definition my_context_list_resource (context resource : string)
  : py MyContext.t (list dict) :=
  '(resource, action) ←
    (if contains ":" resource then
       match split_on ":" resource with
       | [resource; action] => mret (resource, Some action)
       | _ => raise (ValueError "too many values to unpack (expected 2)")
       end
     else mret (resource, None));
  if decide (¬ known_resource resource) then
    raise (ResourceError ("Unrecognized resource type: " +:+ resource))
  else
    h ← MyContext.getitem resource;
    MyContext.on_db
      (handler_list h (Some context) (bool_decide (action = Some "all"))).

Definition my_context_get_resource (context resource key : string)
  : py MyContext.t dict :=
  if decide (¬ known_resource resource) then
    raise (ResourceError ("Unrecognized resource type: " +:+ resource))
  else
    h ← MyContext.getitem resource;
    '(content, mime_type) ← MyContext.on_db (handler_get h (Some context) key);
    mret (<["mime_type" := mime_type]> {["content" := content]}).

(** ** The calls of the core store interface *)

Inductive call :=
  | resource_get (cls : resource_class) (context : option string) (key : string)
  | resource_list (cls : resource_class) (context : option string)
      (include_content : bool)
  | resource_set (cls : resource_class) (context : option string)
      (key resource mime_type : string)
  | resource_remove (cls : resource_class) (context : option string) (key : string)
  | rule_get (context : option string) (key : string)
  | rule_list (context : option string) (include_content : bool)
  | rule_set (context : option string) (policy rule : string)
  | rule_remove (context : option string) (rule : string).

(** One call: the exception it raised, if any, and the connection after. *)
Definition raised {A} (r : outcome A) : option exn :=
  match r with
  | Return _ => None
  | Raise e => Some e
  end.

Definition invoke (c : call) (db : connection) : option exn * connection :=
  match c with
  | resource_get cls context key =>
      prod_map raised id (PersistentResource.get cls context key db)
  | resource_list cls context include_content =>
      prod_map raised id (PersistentResource.list cls context include_content db)
  | resource_set cls context key resource mime_type =>
      prod_map raised id (PersistentResource.set cls context key resource mime_type db)
  | resource_remove cls context key =>
      prod_map raised id (PersistentResource.remove cls context key db)
  | rule_get context key => prod_map raised id (Rule.get context key db)
  | rule_list context include_content =>
      prod_map raised id (Rule.list context include_content db)
  | rule_set context policy rule =>
      prod_map raised id (Rule.set context policy rule db)
  | rule_remove context rule => prod_map raised id (Rule.remove context rule db)
  end.

(** A sequence of calls, whatever each one returns or raises. *)
Definition run (calls : list call) (db : connection) : connection :=
  foldl (λ db c, (invoke c db).2) db calls.

(** The database file as [create_db] finds it on a first start. *)
Definition empty_store : store := Store [] [] [].
Definition fresh : connection := Connection empty_store empty_store.

(** ** backup.py *)

(** An entry of the backup directory. *)
Inductive node :=
  | File (content : list byte)
  | Directory.

(** [f.is_file()] *)
Definition is_file (n : node) : Prop :=
  match n with
  | File _ => True
  | Directory => False
  end.

Global Instance is_file_dec n : Decision (is_file n).
Proof. destruct n; apply _. Defined.

(** The files the manager touches: the store file at [target_path], absent
    or with its bytes, and the backup directory at [path], which the cached
    property creates when it is missing.  An entry is keyed by its file
    name. *)
Record filesystem := Filesystem {
  target_file : option (list byte);
  backup_dir : gmap string node
}.

(** The value bound to [name] in [create]: the caller's [str], or the [int]
    that [time.time_ns()] returned. *)
Inductive name_value :=
  | NameStr (s : string)
  | NameInt (n : Z).

(** [f"{name}"] *)
Definition fmt_name (name : name_value) : string :=
  match name with
  | NameStr s => s
  | NameInt n => pretty n
  end.

(** [s[:-6]] *)
Definition drop_last6 (s : string) : string :=
  String.substring 0 (String.length s - 6) s.

Module Backup.
Section methods.
(** [self.target_path.name], the base name of the target file. *)
Variable target_name : string.

Definition backup_path (name : name_value) : string :=
  fmt_name name +:+ "." +:+ target_name.

(** [shutil.copy(self.target_path, backup_path)], [backup_path] free. *)
Definition copy_target_to (backup_path : string) : py filesystem unit :=
  target ← gets target_file;
  match target with
  | None => raise FileNotFoundError
  | Some content =>
      modify (λ fs, Filesystem (target_file fs)
                      (<[backup_path := File content]> (backup_dir fs)))
  end.

(** [shutil.copy(backup_path, self.target_path)] *)
Definition copy_to_target (backup_path : string) : py filesystem unit :=
  entry ← gets (λ fs, backup_dir fs !! backup_path);
  match entry with
  | None => raise FileNotFoundError
  | Some Directory => raise IsADirectoryError
  | Some (File content) =>
      modify (λ fs, Filesystem (Some content) (backup_dir fs))
  end.

(** [name or time.time_ns()], where [time_ns] is what the clock returns
    in this call: [None] and the empty string are falsy. *)
Definition chosen_name (time_ns : Z) (name : option string) : name_value :=
  match name with
  | Some s => if decide (s = "") then NameInt time_ns else NameStr s
  | None => NameInt time_ns
  end.

Definition create (time_ns : Z) (name : option string)
  : py filesystem name_value :=
  let name := chosen_name time_ns name in
  present ← gets (λ fs, bool_decide (is_Some (backup_dir fs !! backup_path name)));
  if present : bool then
    raise (BackupError ("Backup already exists: " +:+ fmt_name name))
  else
    copy_target_to (backup_path name);;
    mret name.

(** [list] does not read [target_path]. *)
Definition list : py filesystem (Datatypes.list string) :=
  gets (λ fs,
    (λ f, drop_last6 f.1)
    <$> filter (λ f, is_file f.2)
          (map_to_list (backup_dir fs))).

Definition restore (name : name_value) : py filesystem unit :=
  present ← gets (λ fs, bool_decide (is_Some (backup_dir fs !! backup_path name)));
  if present : bool then
    copy_to_target (backup_path name)
  else
    raise (BackupError ("Backup doesnt exist: " +:+ fmt_name name)).
(** [Path.unlink()]: a directory is refused (IsADirectoryError is what
    Linux reports). *)
Definition unlink (backup_path : string) : py filesystem unit :=
  entry ← gets (λ fs, backup_dir fs !! backup_path);
  match entry with
  | None => raise FileNotFoundError
  | Some Directory => raise IsADirectoryError
  | Some (File _) =>
      modify (λ fs, Filesystem (target_file fs) (delete backup_path (backup_dir fs)))
  end.

Definition remove (name : name_value) : py filesystem unit :=
  present ← gets (λ fs, bool_decide (is_Some (backup_dir fs !! backup_path name)));
  if present : bool then
    unlink (backup_path name)
  else
    raise (BackupError ("Backup does not exist: " +:+ fmt_name name)).

Definition clear : py filesystem unit :=
  paths ← gets (λ fs, filter (λ f, is_file f.2) (map_to_list (backup_dir fs)));
  match paths with
  | [] => raise (BackupError "No backups to clear")
  | _ => foldr (λ f rest, unlink f.1;; rest) (mret ()) paths
  end.
End methods.
End Backup.

(** Writing the store file from outside the manager. *)
Definition overwrite_target (content : list byte) (fs : filesystem) : filesystem :=
  Filesystem (Some content) (backup_dir fs).


(** ** The properties of the store *)

Definition resource_key (r : resource_row) : option string * string :=
  (r_context r, r_key r).
Definition rule_key (r : rule_row) : option string * string :=
  (rl_context r, rl_rule r).

(** At most one row per (context, key) in [snippet] and [summary], at most
    one per (context, rule) in [rules]; a NULL context is a context like
    any other here. *)
Definition unique_store (s : store) : Prop :=
  NoDup (rule_key <$> rules s) ∧
  NoDup (resource_key <$> snippet s) ∧
  NoDup (resource_key <$> summary s).

(** Between two calls: no transaction is open and the rows are unique. *)
Definition consistent (db : connection) : Prop :=
  committed db = working db ∧ unique_store (working db).

(** ** server.py: the tools that call the core directly *)

(** The values of a tool's result: [bool] and [str]. *)
Inductive pyvalue :=
  | PyBool (b : bool)
  | PyStr (s : string).

Abbreviation ResultDict := (gmap string pyvalue).

(** [dict(success=True, data=data)] and [dict(success=False, error=str(e))] *)
Definition succeeded (data : string) : ResultDict :=
  <["data" := PyStr data]> {["success" := PyBool true]}.
Definition failed (error : string) : ResultDict :=
  <["error" := PyStr error]> {["success" := PyBool false]}.

(** What a tool call comes to: the dict it returns, an exception of the
    core that its [except] clause does not name, or the [TypeError] of a
    method called with the wrong number of arguments. *)
Inductive tool_outcome :=
  | ToolReturn (result : ResultDict)
  | ToolRaise (e : exn)
  | ToolTypeError.

(** [except ResourceError as e] and [except BackupError as e], with
    [str(e)]. *)
Definition resource_error (e : exn) : option string :=
  match e with
  | ResourceError msg => Some msg
  | _ => None
  end.
Definition backup_error (e : exn) : option string :=
  match e with
  | BackupError msg => Some msg
  | _ => None
  end.

(** [try: return dict(success=True, data=body) except ...] *)
Definition try_tool {S} (caught : exn → option string) (body : py S string)
  : S → tool_outcome * S :=
  λ s, match body s with
       | (Return data, s') => (ToolReturn (succeeded data), s')
       | (Raise e, s') =>
           match caught e with
           | Some error => (ToolReturn (failed error), s')
           | None => (ToolRaise e, s')
           end
       end.

(** [sep.join(l)] *)
Fixpoint join (sep : string) (l : list string) : string :=
  match l with
  | [] => ""
  | [s] => s
  | s :: l' => s +:+ sep +:+ join sep l'
  end.

Definition newline : string := String "010" "".

(** [context or "me"] *)
Definition or_me (context : option string) : string :=
  match context with
  | Some c => if decide (c = "") then "me" else c
  | None => "me"
  end.

Definition handler_remove (h : MyContext.handler) :=
  match h with
  | MyContext.RuleHandler => Rule.remove
  | MyContext.ResourceHandler cls => PersistentResource.remove cls
  end.

(** [ctx.request_context.lifespan_context.my["snippet"].remove(context, key)]
    in the tool's [try]. *)
Definition tool_remove (resource : string) (context key : string)
  : MyContext.t → tool_outcome * MyContext.t :=
  try_tool resource_error
    (h ← MyContext.getitem resource;
     MyContext.on_db (handler_remove h (Some context) key)).

(** [my[resource].set(context, key, content, mime_type)]: four arguments,
    which [Rule.set] does not take. *)
Definition tool_set (resource : string) (context key content mime_type : string)
  : MyContext.t → tool_outcome * MyContext.t :=
  λ my,
    match MyContext.getitem resource my with
    | (Return (MyContext.ResourceHandler cls), my') =>
        try_tool resource_error
          (MyContext.on_db
             (PersistentResource.set cls (Some context) key content mime_type))
          my'
    | (Return MyContext.RuleHandler, my') => (ToolTypeError, my')
    | (Raise e, my') =>
        match resource_error e with
        | Some error => (ToolReturn (failed error), my')
        | None => (ToolRaise e, my')
        end
    end.

Definition my_context_snippet_remove (context key : string) :=
  tool_remove "snippet" context key.
Definition my_context_snippet_set (context key snippet mime_type : string) :=
  tool_set "snippet" context key snippet mime_type.
Definition my_context_summary_remove (context key : string) :=
  tool_remove "summary" context key.
(** [mime_type] defaults to "text/markdown". *)
Definition my_context_summary_set (context key summary : string)
    (mime_type : option string) :=
  tool_set "summary" context key summary (default "text/markdown" mime_type).



Definition my_context_rule_set (policy rule : string) (context : option string)
  : MyContext.t → tool_outcome * MyContext.t :=
  λ my,
    match MyContext.getitem "rule" my with
    | (Return MyContext.RuleHandler, my') =>
        try_tool resource_error
          (MyContext.on_db (Rule.set (Some (or_me context)) policy rule)) my'
    | (Return (MyContext.ResourceHandler _), my') => (ToolTypeError, my')
    | (Raise e, my') =>
        match resource_error e with
        | Some error => (ToolReturn (failed error), my')
        | None => (ToolRaise e, my')
        end
    end.

(** [pathlib.Path(MY_CONTEXT_DB_PATH).name], the target of the server's
    backup manager. *)
Definition MY_CONTEXT_DB_NAME : string := "my.db".





Definition my_context_backup_restore (time_ns : Z) (name : string)
    (backup_current : bool) : filesystem → tool_outcome * filesystem :=
  try_tool backup_error
    (messages ←
       (if backup_current then
          backup_name ← Backup.create MY_CONTEXT_DB_NAME time_ns None;
          mret ["Backup created: " +:+ fmt_name backup_name]
        else mret []);
     Backup.restore MY_CONTEXT_DB_NAME (NameStr name);;
     mret (join newline (messages ++ ["Backup restored: " +:+ name])%list)).


(** * Proofs *)

(** ** Lists of rows and their keys *)

Section keyed.
Context {A K : Type} (key : A → K).
Implicit Types (t : list A) (P : A → Prop).

Lemma keys_update P `{!∀ r, Decision (P r)} (f : A → A) t :
  (∀ r, key (f r) = key r) →
  key <$> ((λ r, if decide (P r) then f r else r) <$> t) = key <$> t.
Proof.
  intros Hf. rewrite <- list_fmap_compose. apply list_fmap_ext.
  intros i r _. simpl. by destruct (decide (P r)).
Qed.

Lemma NoDup_keys_filter P `{!∀ r, Decision (P r)} t :
  NoDup (key <$> t) → NoDup (key <$> filter P t).
Proof.
  intros Hnd. apply (sublist_NoDup _ (key <$> t)); [exact Hnd|].
  apply fmap_sublist, sublist_filter.
Qed.

Lemma NoDup_keys_snoc t new :
  NoDup (key <$> t) → key new ∉ key <$> t → NoDup (key <$> (t ++ [new])%list).
Proof.
  intros Hnd Hnew. rewrite fmap_app. apply NoDup_app. repeat split.
  - done.
  - intros k Hk Hin. apply list_elem_of_singleton in Hin. by subst.
  - apply NoDup_singleton.
Qed.

Lemma filter_none P `{!∀ r, Decision (P r)} t :
  length (filter P t) = 0 → ∀ r, r ∈ t → ¬ P r.
Proof.
  intros Hlen r Hr HP. apply nil_length_inv in Hlen.
  by eapply filter_nil_not_elem_of.
Qed.

Lemma filter_keeps_all P `{!∀ r, Decision (P r)} t :
  (∀ r, r ∈ t → P r) → filter P t = t.
Proof.
  induction t as [|r t IH]; intros Hall; [done|].
  rewrite filter_cons_True by (apply Hall; left).
  f_equal. apply IH. intros r' Hr'. apply Hall. by right.
Qed.

Lemma filter_drops_all P `{!∀ r, Decision (P r)} t :
  (∀ r, r ∈ t → ¬ P r) → filter P t = [].
Proof.
  induction t as [|r t IH]; intros Hall; [done|].
  rewrite filter_cons_False by (apply Hall; left).
  apply IH. intros r' Hr'. apply Hall. by right.
Qed.

Context `{!EqDecision K}.

(** With unique keys, a key selects its row and nothing else. *)
Lemma filter_key_of_row t r :
  NoDup (key <$> t) → r ∈ t → filter (λ r', key r' = key r) t = [r].
Proof.
  induction t as [|a t IH]; intros Hnd Hr; [by apply elem_of_nil in Hr|].
  rewrite fmap_cons in Hnd. apply NoDup_cons in Hnd as [Ha Hnd].
  apply elem_of_cons in Hr as [->|Hr].
  - rewrite filter_cons_True by done. f_equal.
    apply filter_drops_all. intros r' Hr' Heq. apply Ha.
    rewrite <- Heq. by apply list_elem_of_fmap_2.
  - rewrite filter_cons_False; [by apply IH|].
    intros Heq. apply Ha. rewrite Heq. by apply list_elem_of_fmap_2.
Qed.

Lemma filter_key_absent t k :
  k ∉ key <$> t → filter (λ r, key r = k) t = [].
Proof.
  intros Hk. apply filter_drops_all. intros r Hr Heq. apply Hk.
  rewrite <- Heq. by apply list_elem_of_fmap_2.
Qed.

Lemma at_most_one_per_key t k :
  NoDup (key <$> t) → (length (filter (λ r, key r = k) t) ≤ 1)%nat.
Proof.
  intros Hnd. destruct (decide (k ∈ key <$> t)) as [Hin|Hout].
  - apply list_elem_of_fmap in Hin as (r & -> & Hr).
    by rewrite filter_key_of_row.
  - rewrite filter_key_absent by done. simpl. lia.
Qed.
End keyed.

Lemma filter_fmap {A B} (f : A → B) (P : B → Prop) `{!∀ y, Decision (P y)}
    (l : list A) :
  filter P (f <$> l) = f <$> filter (λ x, P (f x)) l.
Proof.
  induction l as [|x l IH]; [done|]. rewrite fmap_cons.
  destruct (decide (P (f x))) as [HP|HP].
  - rewrite !filter_cons_True by done. by rewrite fmap_cons, IH.
  - by rewrite !filter_cons_False.
Qed.

(** ** Tables of the store *)

Lemma table_with_table tid rows s : table tid (with_table tid rows s) = rows.
Proof. by destruct tid. Qed.

Lemma with_table_table tid s : with_table tid (table tid s) s = s.
Proof. by destruct tid, s. Qed.

Lemma with_rules_rules s : with_rules (rules s) s = s.
Proof. by destruct s. Qed.

Lemma unique_with_table tid rows s :
  unique_store s → NoDup (resource_key <$> rows) →
  unique_store (with_table tid rows s).
Proof. intros (? & ? & ?) ?. by destruct tid. Qed.

Lemma unique_with_rules rows s :
  unique_store s → NoDup (rule_key <$> rows) → unique_store (with_rules rows s).
Proof. by intros (? & ? & ?) ?. Qed.

Lemma unique_table tid s : unique_store s → NoDup (resource_key <$> table tid s).
Proof. intros (? & ? & ?). by destruct tid. Qed.

Lemma update_no_match {A} (P : A → Prop) `{!∀ r, Decision (P r)} (f : A → A)
    (t : list A) :
  (∀ r, r ∈ t → ¬ P r) → (λ r, if decide (P r) then f r else r) <$> t = t.
Proof.
  intros Hno. rewrite <- (list_fmap_id t) at 2. apply list_fmap_ext.
  intros i r Hr. simpl. destruct (decide (P r)) as [HP|]; [|done].
  destruct (Hno r); [|done]. by eapply list_elem_of_lookup_2.
Qed.

Lemma allowed_policy policy :
  policy ∈ ALLOWED_RULE_POLICIES ↔
  policy ∈ ["MUST"; "MUST NOT"; "SHOULD"; "SHOULD NOT"; "MAY"].
Proof.
  unfold ALLOWED_RULE_POLICIES.
  rewrite !elem_of_union, !elem_of_singleton, !elem_of_cons, elem_of_nil. tauto.
Qed.

(** The WHERE clauses that use null-aware comparison select by key. *)
Lemma resource_is_key context key r :
  r_key r = key ∧ sql_is (r_context r) context ↔ resource_key r = (context, key).
Proof. unfold sql_is, resource_key. split; [by intros [-> ->]|by intros [= -> ->]]. Qed.

Lemma rule_is_key context rule r :
  rl_rule r = rule ∧ sql_is (rl_context r) context ↔ rule_key r = (context, rule).
Proof. unfold sql_is, rule_key. split; [by intros [-> ->]|by intros [= -> ->]]. Qed.

(** [=] on a context implies the key, and is the key for a named context. *)
Lemma sql_eq_is col param : sql_eq col param → sql_is col param.
Proof. by intros [_ ?]. Qed.

Lemma sql_eq_named col c : sql_eq col (Some c) ↔ col = Some c.
Proof. unfold sql_eq. split; [by intros [_ ?]|intros ->; eauto]. Qed.

Lemma sql_eq_null col : ¬ sql_eq col None.
Proof. intros [[x Hx] Hn]. congruence. Qed.

Ltac py_unfold :=
  unfold select, update, delete_where, insert_row, write_rows, commit in *;
  unfold mbind, py_mbind, py_bind, mret, py_mret, py_ret, gets, modify, raise
    in *.

(** ** [PersistentResource.set] *)

Section resource_set.
Variable cls : resource_class.
Variables (context : option string) (key resource mime_type : string).
Variable db : connection.

Let tid := resource_table cls.
Let rows := table tid (working db).
Let described :=
  resource_name cls +:+ " (" +:+ fmt context +:+ "/" +:+ key +:+ " "
  +:+ mime_type +:+ ")".
Let updated :=
  (λ r, if decide (resource_key r = (context, key))
        then ResourceRow mime_type (r_context r) (r_key r) resource else r)
  <$> rows.

Lemma resource_set_existing :
  (context, key) ∈ resource_key <$> rows →
  PersistentResource.set cls context key resource mime_type db =
    (Return ("Existing " +:+ described +:+ " updated"),
     let s := with_table tid updated (working db) in Connection s s).
Proof.
  intros Hin. apply list_elem_of_fmap in Hin as (r0 & Hk & Hr0).
  unfold PersistentResource.set. py_unfold. simpl.
  destruct (decide (Forall _ _)) as [_|Hn].
  2:{ destruct Hn. by apply Forall_forall. }
  simpl. destruct (decide (length _ = 0)) as [Hlen|_].
  { exfalso. eapply (filter_none _ _ Hlen r0 Hr0). by apply resource_is_key. }
  simpl. fold tid. fold rows.
  assert (((λ r, if decide (r_key r = key ∧ sql_is (r_context r) context)
                 then ResourceRow mime_type (r_context r) (r_key r) resource
                 else r) <$> rows) = updated) as ->; [|done].
  apply list_fmap_ext. intros i r _. simpl.
  destruct (decide (r_key r = key ∧ _)) as [HP|HP];
    destruct (decide (resource_key r = _)) as [HQ|HQ]; try done.
  - destruct HQ. by apply resource_is_key.
  - destruct HP. by apply resource_is_key.
Qed.

Lemma resource_set_new :
  (context, key) ∉ resource_key <$> rows →
  PersistentResource.set cls context key resource mime_type db =
    (Return ("New " +:+ described +:+ " added"),
     let s := with_table tid
                (rows ++ [ResourceRow mime_type context key resource])%list
                (working db) in
     Connection s s).
Proof.
  intros Hout.
  assert (∀ r, r ∈ rows → ¬ (r_key r = key ∧ sql_is (r_context r) context))
    as Hno.
  { intros r Hr HP. apply Hout. apply resource_is_key in HP as <-.
    by apply list_elem_of_fmap_2. }
  unfold PersistentResource.set. py_unfold. simpl.
  destruct (decide (Forall _ _)) as [_|Hn].
  2:{ destruct Hn. by apply Forall_forall. }
  simpl. fold tid. fold rows. rewrite (filter_drops_all _ _ Hno). simpl.
  rewrite table_with_table, (update_no_match _ _ _ Hno).
  destruct (decide (Exists _ _)) as [Hex|_].
  { exfalso. apply Exists_exists in Hex as (r & Hr & Hk & Hc).
    apply (Hno r Hr). split; [done|]. by apply sql_eq_is. }
  simpl. by destruct tid, (working db).
Qed.
End resource_set.

Lemma resource_set_post cls context key resource mime_type db :
  let tid := resource_table cls in
  NoDup (resource_key <$> table tid (working db)) →
  ∃ msg rows',
    PersistentResource.set cls context key resource mime_type db =
      (Return msg, let s := with_table tid rows' (working db) in Connection s s) ∧
    NoDup (resource_key <$> rows') ∧
    ResourceRow mime_type context key resource ∈ rows'.
Proof.
  intros tid Hnd.
  destruct (decide ((context, key) ∈ resource_key <$> table tid (working db)))
    as [Hin|Hout].
  - eexists _, _. split; [by apply resource_set_existing|]. split.
    + by rewrite (keys_update resource_key (λ r, resource_key r = (context, key))).
    + apply list_elem_of_fmap in Hin as (r & Hk & Hr).
      apply list_elem_of_fmap. exists r. split; [|done].
      rewrite decide_True by done. by injection Hk as -> ->.
  - eexists _, _. split; [by apply resource_set_new|]. split.
    + by apply NoDup_keys_snoc.
    + apply elem_of_app. right. by apply list_elem_of_singleton.
Qed.

(** ** [PersistentResource.get], [list] and [remove] *)

Lemma resource_get_found cls c key db r :
  let rows := table (resource_table cls) (working db) in
  NoDup (resource_key <$> rows) → r ∈ rows → resource_key r = (Some c, key) →
  PersistentResource.get cls (Some c) key db = (Return (r_content r, r_type r), db).
Proof.
  intros rows Hnd Hr Hk. unfold PersistentResource.get. py_unfold. simpl.
  fold rows.
  rewrite (list_filter_iff _ (λ r', resource_key r' = resource_key r)).
  - by rewrite filter_key_of_row.
  - intros r'. rewrite Hk, sql_eq_named. unfold resource_key.
    split; [by intros [-> ->]|by intros [= -> ->]].
Qed.

Lemma resource_remove_run cls context key db :
  let tid := resource_table cls in
  let P := λ r, sql_eq (r_context r) context ∧ r_key r = key in
  ∃ out,
    PersistentResource.remove cls context key db =
      (out, let s := with_table tid (filter (λ r, ¬ P r) (table tid (working db)))
                       (working db) in
            Connection s s) ∧
    (raised out ≠ None → ∀ r, r ∈ table tid (working db) → ¬ P r).
Proof.
  intros tid P. unfold PersistentResource.remove. py_unfold. simpl.
  fold tid. destruct (decide (0 < _)) as [Hpos|Hzero]; simpl.
  - by eexists.
  - eexists. split; [done|]. intros _.
    assert (length (filter P (table tid (working db))) = 0) as Hlen by (subst P; lia).
    intros r Hr HP. by apply (filter_none _ _ Hlen r Hr).
Qed.

Lemma resource_remove_missing cls context key db :
  committed db = working db →
  (context, key) ∉ resource_key <$> table (resource_table cls) (working db) →
  PersistentResource.remove cls context key db =
    (Raise (ResourceError
       (capitalize (resource_name cls) +:+ " '" +:+ fmt context +:+ "/" +:+ key
        +:+ "' not found")), db).
Proof.
  intros Hclean Hout.
  assert (∀ r, r ∈ table (resource_table cls) (working db) →
               ¬ (sql_eq (r_context r) context ∧ r_key r = key)) as Hno.
  { intros r Hr [Hc Hk]. apply Hout. apply list_elem_of_fmap. exists r.
    split; [|done]. unfold resource_key. apply sql_eq_is in Hc. by rewrite Hc, Hk. }
  unfold PersistentResource.remove. py_unfold. simpl.
  rewrite (filter_drops_all _ _ Hno). simpl.
  rewrite filter_keeps_all by (intros r Hr; by apply Hno).
  rewrite with_table_table. destruct db as [cm wk]. simpl in *. by subst.
Qed.

(** ** [Rule.set] *)

Section rule_set.
Variables (context : option string) (policy rule : string).
Variable db : connection.

Let rows := rules (working db).
Let selected :=
  filter (λ r, rl_rule r = rule ∧ sql_is (rl_context r) context) rows.
Let updated :=
  (λ r, if decide (rule_key r = (context, rule))
        then RuleRow (rl_context r) policy (rl_rule r) else r)
  <$> rows.

Lemma rule_set_invalid :
  policy ∉ ALLOWED_RULE_POLICIES →
  Rule.set context policy rule db =
    (Raise (ResourceError
       ("Invalid policy '" +:+ policy +:+ "'. Must be one of: "
        +:+ "['MAY', 'MUST', 'MUST NOT', 'SHOULD', 'SHOULD NOT']")), db).
Proof. intros Hbad. unfold Rule.set. by rewrite decide_True. Qed.

Lemma rule_selected_found old :
  NoDup (rule_key <$> rows) → RuleRow context old rule ∈ rows →
  selected = [RuleRow context old rule].
Proof.
  intros Hnd Hin. unfold selected.
  rewrite (list_filter_iff _ (λ r, rule_key r = rule_key (RuleRow context old rule)))
    by apply rule_is_key.
  by apply filter_key_of_row.
Qed.

Lemma rule_selected_absent :
  (context, rule) ∉ rule_key <$> rows → selected = [].
Proof.
  intros Hout. unfold selected.
  rewrite (list_filter_iff _ (λ r, rule_key r = (context, rule)))
    by apply rule_is_key.
  by apply filter_key_absent.
Qed.

Lemma rule_set_same :
  policy ∈ ALLOWED_RULE_POLICIES →
  NoDup (rule_key <$> rows) → RuleRow context policy rule ∈ rows →
  Rule.set context policy rule db =
    (Raise (ResourceError
       "Rule already exists with the same policy and context"), db).
Proof.
  intros Hok Hnd Hin. unfold Rule.set.
  rewrite decide_False by (by intros []). py_unfold. simpl.
  fold rows. fold selected. rewrite (rule_selected_found policy) by done.
  simpl. by rewrite decide_True.
Qed.

Lemma rule_set_update old :
  policy ∈ ALLOWED_RULE_POLICIES →
  NoDup (rule_key <$> rows) → RuleRow context old rule ∈ rows → old ≠ policy →
  Rule.set context policy rule db =
    (Return ("Policy updated from '" +:+ old +:+ "' to '" +:+ policy +:+ "'"),
     let s := with_rules updated (working db) in Connection s s).
Proof.
  intros Hok Hnd Hin Hne. unfold Rule.set.
  rewrite decide_False by (by intros []). py_unfold. simpl.
  fold rows. fold selected. rewrite (rule_selected_found old) by done.
  simpl. rewrite decide_False by done.
  destruct (decide (Forall _ _)) as [_|Hn].
  2:{ destruct Hn. apply Forall_forall. intros r _.
      unfold Rule.check. simpl. by apply allowed_policy. }
  simpl. fold rows.
  assert (((λ r, if decide (rl_rule r = rule ∧ sql_is (rl_context r) context)
                 then RuleRow (rl_context r) policy (rl_rule r) else r)
           <$> rows) = updated) as ->; [|done].
  apply list_fmap_ext. intros i r _. simpl.
  destruct (decide (rl_rule r = rule ∧ _)) as [HP|HP];
    destruct (decide (rule_key r = _)) as [HQ|HQ]; try done.
  - destruct HQ. by apply rule_is_key.
  - destruct HP. by apply rule_is_key.
Qed.

Lemma rule_set_new :
  policy ∈ ALLOWED_RULE_POLICIES →
  (context, rule) ∉ rule_key <$> rows →
  Rule.set context policy rule db =
    (Return "New rule added",
     let s := with_rules (rows ++ [RuleRow context policy rule])%list
                (working db) in
     Connection s s).
Proof.
  intros Hok Hout. unfold Rule.set.
  rewrite decide_False by (by intros []). py_unfold. simpl.
  fold rows. fold selected. rewrite rule_selected_absent by done. simpl.
  destruct (decide (Rule.check _)) as [_|Hn].
  2:{ destruct Hn. unfold Rule.check. simpl. by apply allowed_policy. }
  destruct (decide (Exists _ _)) as [Hex|_]; [|done].
  exfalso. apply Exists_exists in Hex as (r & Hr & Hc & Hk). simpl in *.
  apply Hout. apply list_elem_of_fmap. exists r. split; [|done].
  unfold rule_key. apply sql_eq_is in Hc. by rewrite Hc, Hk.
Qed.
End rule_set.

Lemma rule_set_post context policy rule db :
  NoDup (rule_key <$> rules (working db)) →
  (∃ e, Rule.set context policy rule db = (Raise e, db)) ∨
  (∃ msg rows',
     Rule.set context policy rule db =
       (Return msg, let s := with_rules rows' (working db) in Connection s s) ∧
     NoDup (rule_key <$> rows') ∧
     RuleRow context policy rule ∈ rows').
Proof.
  intros Hnd.
  destruct (decide (policy ∈ ALLOWED_RULE_POLICIES)) as [Hok|Hbad].
  2:{ left. eexists. by apply rule_set_invalid. }
  destruct (decide ((context, rule) ∈ rule_key <$> rules (working db)))
    as [Hin|Hout].
  - apply list_elem_of_fmap in Hin as ([c old r] & [= -> ->] & Hr).
    destruct (decide (old = policy)) as [->|Hne].
    { left. eexists. by apply rule_set_same. }
    right. eexists _, _. split; [by apply (rule_set_update _ _ _ _ old)|]. split.
    + by rewrite (keys_update rule_key (λ r', rule_key r' = (c, r))).
    + apply list_elem_of_fmap. eexists. split; [|exact Hr].
      by rewrite decide_True.
  - right. eexists _, _. split; [by apply rule_set_new|]. split.
    + by apply NoDup_keys_snoc.
    + apply elem_of_app. right. by apply list_elem_of_singleton.
Qed.

Lemma rule_set_raise context policy rule db e db' :
  Rule.set context policy rule db = (Raise e, db') → db' = db.
Proof.
  unfold Rule.set. destruct (decide (policy ∉ _)) as [Hbad|Hok].
  { by intros [= _ <-]. }
  apply dec_stable in Hok. py_unfold. simpl.
  destruct (head _) as [row|]; simpl.
  - destruct (decide (rl_policy row = policy)); [by intros [= _ <-]|].
    destruct (decide (Forall _ _)) as [_|Hn]; [done|].
    destruct Hn. apply Forall_forall. intros r _.
    unfold Rule.check. simpl. by apply allowed_policy.
  - destruct (decide (Rule.check _)); [|by intros [= _ <-]].
    destruct (decide (Exists _ _)); [by intros [= _ <-]|done].
Qed.

(** ** [Rule.remove] *)

(** Both branches of [Rule.remove] select the rows with the key. *)
Lemma rule_remove_where context rule r :
  match context with
  | None => rl_rule r = rule ∧ sql_is (rl_context r) None
  | Some _ => rl_rule r = rule ∧ sql_eq (rl_context r) context
  end ↔ rule_key r = (context, rule).
Proof.
  destruct context as [c|].
  - rewrite sql_eq_named. unfold rule_key.
    split; [by intros [-> ->]|by intros [= -> ->]].
  - apply rule_is_key.
Qed.

Lemma rule_remove_post ctx rule db :
  let rows := rules (working db) in
  (Rule.remove ctx rule db =
     (Raise (ResourceError
        ("Rule '" +:+ rule +:+ "' not found with the specified context")), db) ∧
   (ctx, rule) ∉ rule_key <$> rows)
  ∨
  (Rule.remove ctx rule db =
     (Return ("Rule '" +:+ rule +:+ "' removed successfully"),
      let s := with_rules (filter (λ r, rule_key r ≠ (ctx, rule)) rows)
                 (working db) in
      Connection s s) ∧
   (ctx, rule) ∈ rule_key <$> rows).
Proof.
  intros rows.
  assert (∀ r, match ctx with
               | None => rl_rule r = rule ∧ sql_is (rl_context r) None
               | Some _ => rl_rule r = rule ∧ sql_eq (rl_context r) ctx
               end ↔ rule_key r = (ctx, rule)) as HP
    by (intros r; apply rule_remove_where).
  destruct (decide ((ctx, rule) ∈ rule_key <$> rows)) as [Hin|Hout].
  - right. split; [|done].
    apply list_elem_of_fmap in Hin as (r0 & Hk & Hr0).
    unfold Rule.remove. remember (ctx, rule) as k eqn:Hkey.
    destruct ctx as [c|]; py_unfold; simpl; fold rows;
      match goal with
      | |- context [head (filter ?Q rows)] =>
          assert (r0 ∈ filter Q rows) as Hsel
            by (apply list_elem_of_filter; split; [by apply HP|done]);
          assert (filter (λ r, ¬ Q r) rows
                  = filter (λ r, rule_key r ≠ k) rows) as Hdel
            by (apply list_filter_iff; intros r; by rewrite HP);
          destruct (filter Q rows) as [|r1 sel] eqn:Heq;
            [by apply elem_of_nil in Hsel|]
      end; simpl; fold rows; rewrite Heq; simpl; by rewrite Hdel.
  - left. split; [|done].
    unfold Rule.remove.
    destruct ctx as [c|]; py_unfold; simpl; fold rows;
      match goal with
      | |- context [head (filter ?Q rows)] =>
          assert (filter Q rows = []) as ->; [|done];
          apply filter_drops_all; intros r Hr HQ; apply Hout;
          apply HP in HQ as <-; by apply list_elem_of_fmap_2
      end.
Qed.

(** ** Calls that only read *)

Lemma resource_get_state cls context key db :
  (PersistentResource.get cls context key db).2 = db.
Proof.
  unfold PersistentResource.get. py_unfold. simpl. by destruct (head _).
Qed.

Lemma resource_list_run cls context include_content db :
  ∃ entries,
    PersistentResource.list cls context include_content db = (Return entries, db).
Proof. by eexists. Qed.

Lemma rule_list_run context include_content db :
  ∃ entries, Rule.list context include_content db = (Return entries, db).
Proof. by eexists. Qed.

(** ** One call keeps the store consistent, and a raise leaves it alone *)

Lemma invoke_consistent c db : consistent db → consistent (invoke c db).2.
Proof.
  intros [Hclean Huniq]. destruct c; simpl.
  - by rewrite resource_get_state.
  - done.
  - destruct (resource_set_post cls context key resource mime_type db)
      as (msg & rows' & -> & Hnd & _); [by apply unique_table|].
    split; [done|]. by apply unique_with_table.
  - destruct (resource_remove_run cls context key db) as (out & -> & _).
    split; [done|]. apply unique_with_table; [done|].
    apply NoDup_keys_filter. by apply unique_table.
  - done.
  - done.
  - destruct (rule_set_post context policy rule db)
      as [[e ->]|(msg & rows' & -> & Hnd & _)]; [apply Huniq|done|].
    split; [done|]. by apply unique_with_rules.
  - destruct (rule_remove_post context rule db) as [[-> _]|[-> _]]; [done|].
    split; [done|]. apply unique_with_rules; [done|].
    apply NoDup_keys_filter. apply Huniq.
Qed.

Lemma run_consistent calls db : consistent db → consistent (run calls db).
Proof.
  revert db. induction calls as [|c calls IH]; intros db Hdb; [done|].
  apply IH. by apply invoke_consistent.
Qed.

Lemma invoke_raise c db e :
  committed db = working db → (invoke c db).1 = Some e → (invoke c db).2 = db.
Proof.
  intros Hclean. destruct c; simpl.
  - intros _. apply resource_get_state.
  - done.
  - destruct (decide ((context, key) ∈
        resource_key <$> table (resource_table cls) (working db))).
    + by rewrite resource_set_existing.
    + by rewrite resource_set_new.
  - destruct (resource_remove_run cls context key db) as (out & Hrun & Hno).
    rewrite Hrun. simpl. intros Hraise.
    rewrite filter_keeps_all by (apply Hno; congruence).
    rewrite with_table_table. destruct db. simpl in *. by subst.
  - done.
  - done.
  - destruct (Rule.set context policy rule db) as [[msg|e'] db'] eqn:Hrun;
      [done|]. intros _. simpl. by eapply rule_set_raise.
  - by destruct (rule_remove_post context rule db) as [[-> _]|[-> _]].
Qed.

(** * The properties of the specification *)

(** ** The rule engine *)

(** C1.  [Rule.set] follows the algorithm of the specification, for every
    context (named or absent), policy string and rule text, on a [rules]
    table with at most one row per (context, rule).  A policy outside the
    five allowed values raises the "Invalid policy" error and leaves the
    connection as it was, so no row is created.  Otherwise the row with
    exactly this (context, rule) decides: with the same policy the call
    raises "Rule already exists with the same policy and context" and
    changes nothing; with another policy that row, and no other, gets the
    new policy where it stands, the change is committed and the message
    names the old and the new policy; with no such row a new row is
    appended and committed and the message is "New rule added". *)
Theorem rule_set_algorithm (context : option string) (policy rule : string)
    (db : connection) :
  let rows := rules (working db) in
  NoDup (rule_key <$> rows) →
  (policy ∉ ALLOWED_RULE_POLICIES →
     Rule.set context policy rule db =
       (Raise (ResourceError
          ("Invalid policy '" +:+ policy +:+ "'. Must be one of: "
           +:+ "['MAY', 'MUST', 'MUST NOT', 'SHOULD', 'SHOULD NOT']")), db)) ∧
  (policy ∈ ALLOWED_RULE_POLICIES →
     (RuleRow context policy rule ∈ rows →
        Rule.set context policy rule db =
          (Raise (ResourceError
             "Rule already exists with the same policy and context"), db)) ∧
     (∀ old, RuleRow context old rule ∈ rows → old ≠ policy →
        Rule.set context policy rule db =
          (Return ("Policy updated from '" +:+ old +:+ "' to '" +:+ policy +:+ "'"),
           let s := with_rules
                      ((λ r, if decide (r = RuleRow context old rule)
                             then RuleRow context policy rule else r) <$> rows)
                      (working db) in
           Connection s s)) ∧
     ((∀ p, RuleRow context p rule ∉ rows) →
        Rule.set context policy rule db =
          (Return "New rule added",
           let s := with_rules (rows ++ [RuleRow context policy rule])%list
                      (working db) in
           Connection s s))).
Proof.
  intros rows Hnd. split; [apply rule_set_invalid|].
  intros Hok. split; [by apply rule_set_same|]. split.
  - intros old Hin Hne. rewrite (rule_set_update _ _ _ _ old) by done.
    assert (((λ r, if decide (rule_key r = (context, rule))
                   then RuleRow (rl_context r) policy (rl_rule r) else r)
             <$> rules (working db))
            = ((λ r, if decide (r = RuleRow context old rule)
                     then RuleRow context policy rule else r) <$> rows))
      as ->; [|done].
    apply list_fmap_ext. intros i r Hr. simpl.
    apply list_elem_of_lookup_2 in Hr.
    destruct (decide (rule_key r = (context, rule))) as [Hk|Hk].
    + assert (r ∈ filter (λ r', rule_key r' = rule_key (RuleRow context old rule))
                    (rules (working db))) as Hsel
        by (by apply list_elem_of_filter).
      rewrite filter_key_of_row in Hsel by done.
      apply list_elem_of_singleton in Hsel as ->. by rewrite decide_True.
    + rewrite decide_False; [done|]. intros ->. by apply Hk.
  - intros Hnone. apply rule_set_new; [done|]. intros Hin.
    apply list_elem_of_fmap in Hin as ([c p r] & [= -> ->] & Hr).
    by apply (Hnone p).
Qed.

Lemma rule_set_algorithm_witness :
  let db :=
    Connection (Store [RuleRow None "MUST" "do X"] [] [])
               (Store [RuleRow None "MUST" "do X"] [] []) in
  Rule.set None "MAYBE" "do X" db =
    (Raise (ResourceError
       "Invalid policy 'MAYBE'. Must be one of: ['MAY', 'MUST', 'MUST NOT', 'SHOULD', 'SHOULD NOT']"),
     db) ∧
  Rule.set None "SHOULD" "do X" db =
    (Return "Policy updated from 'MUST' to 'SHOULD'",
     Connection (Store [RuleRow None "SHOULD" "do X"] [] [])
                (Store [RuleRow None "SHOULD" "do X"] [] [])).
Proof.
  intros db.
  assert (NoDup (rule_key <$> rules (working db))) as Hnd
    by (simpl; apply NoDup_singleton).
  destruct (rule_set_algorithm None "MAYBE" "do X" db Hnd) as [Hbad _].
  destruct (rule_set_algorithm None "SHOULD" "do X" db Hnd) as [_ Hok].
  split.
  - apply Hbad. vm_compute. intros H. inversion H.
  - destruct Hok as (_ & Hupd & _). { by vm_compute. }
    rewrite (Hupd "MUST"); [done|by left|done].
Defined.

(** C5 at the absent context.  A rule that [Rule.set] has stored under the
    absent context is in the [rules] table, committed, and [Rule.list]
    called with the same absent context returns the empty list all the
    same: its WHERE clause compares the context with [=], which is never
    true of NULL, where [set] and [remove] compare with IS. *)
Theorem rule_list_misses_absent_context (policy rule msg : string)
    (db db' : connection) :
  NoDup (rule_key <$> rules (working db)) →
  Rule.set None policy rule db = (Return msg, db') →
  RuleRow None policy rule ∈ rules (committed db') ∧
  ∀ include_content, Rule.list None include_content db' = (Return [], db').
Proof.
  intros Hnd Hset.
  destruct (rule_set_post None policy rule db Hnd)
    as [[e He]|(msg' & rows' & Hrun & _ & Hin)]; [congruence|].
  rewrite Hrun in Hset. injection Hset as <- <-. split; [done|].
  intros include_content. unfold Rule.list. py_unfold. simpl.
  rewrite filter_drops_all; [done|]. intros r _. apply sql_eq_null.
Qed.

Lemma rule_list_misses_absent_context_witness :
  RuleRow None "MUST" "do X"
    ∈ rules (committed (Rule.set None "MUST" "do X" fresh).2) ∧
  Rule.list None false (Rule.set None "MUST" "do X" fresh).2
  = (Return [], (Rule.set None "MUST" "do X" fresh).2).
Proof.
  destruct (rule_list_misses_absent_context "MUST" "do X" "New rule added"
              fresh (Rule.set None "MUST" "do X" fresh).2) as [Hin Hlist].
  - simpl. apply NoDup_nil_2.
  - reflexivity.
  - split; [exact Hin|apply Hlist].
Defined.

(** [Rule.remove] does find that row: its lookup for an absent context is
    written with IS NULL. *)
Lemma rule_remove_finds_absent_context (policy rule msg : string)
    (db db' : connection) :
  NoDup (rule_key <$> rules (working db)) →
  Rule.set None policy rule db = (Return msg, db') →
  (Rule.remove None rule db').1
  = Return ("Rule '" +:+ rule +:+ "' removed successfully").
Proof.
  intros Hnd Hset.
  destruct (rule_set_post None policy rule db Hnd)
    as [[e He]|(msg' & rows' & Hrun & _ & Hin)]; [congruence|].
  rewrite Hrun in Hset. injection Hset as <- <-.
  destruct (rule_remove_post None rule
              (let s := with_rules rows' (working db) in Connection s s))
    as [[_ Hout]|[Hrm _]].
  - destruct Hout. simpl. by apply (list_elem_of_fmap_2 rule_key) in Hin.
  - apply (f_equal fst) in Hrm. exact Hrm.
Qed.

(** Under a named context [Rule.list] does return the stored rule. *)
Lemma rule_list_named_context (c policy rule msg : string) include_content
    (db db' : connection) :
  NoDup (rule_key <$> rules (working db)) →
  Rule.set (Some c) policy rule db = (Return msg, db') →
  ∃ entries,
    Rule.list (Some c) include_content db' = (Return entries, db') ∧
    <["rule" := rule]> {["policy" := policy]} ∈ entries.
Proof.
  intros Hnd Hset.
  destruct (rule_set_post (Some c) policy rule db Hnd)
    as [[e He]|(msg' & rows' & Hrun & _ & Hin)]; [congruence|].
  rewrite Hrun in Hset. injection Hset as <- <-.
  eexists. split; [done|]. simpl.
  apply list_elem_of_fmap. exists (RuleRow (Some c) policy rule).
  split; [done|]. apply list_elem_of_filter. split; [|done].
  by apply sql_eq_named.
Qed.

(** ** The resource store *)

(** C2.  Upsert round trip on the snippet and summary resources, for every
    named context and every key, from a table with at most one row per
    (context, key): after [set] the value and MIME type are what [get]
    returns; after a second [set] of the same key [get] returns the second
    value; and [list], with or without content, then has exactly one entry
    whose key is that key.  All five calls return. *)
Theorem upsert_round_trip (cls : resource_class) (c k v v2 m : string)
    (include_content : bool) (db : connection) :
  cls = Snippet ∨ cls = Summary →
  NoDup (resource_key <$> table (resource_table cls) (working db)) →
  ∃ msg1 db1 msg2 db2 entries,
    PersistentResource.set cls (Some c) k v m db = (Return msg1, db1) ∧
    PersistentResource.get cls (Some c) k db1 = (Return (v, m), db1) ∧
    PersistentResource.set cls (Some c) k v2 m db1 = (Return msg2, db2) ∧
    PersistentResource.get cls (Some c) k db2 = (Return (v2, m), db2) ∧
    PersistentResource.list cls (Some c) include_content db2
      = (Return entries, db2) ∧
    length (filter (λ e : dict, e !! "key" = Some k) entries) = 1.
Proof.
  intros Hcls Hnd.
  destruct (resource_set_post cls (Some c) k v m db Hnd)
    as (msg1 & rows1 & Hset1 & Hnd1 & Hin1).
  set (db1 := let s := with_table (resource_table cls) rows1 (working db) in
              Connection s s) in *.
  assert (table (resource_table cls) (working db1) = rows1) as Htab1
    by apply table_with_table.
  destruct (resource_set_post cls (Some c) k v2 m db1)
    as (msg2 & rows2 & Hset2 & Hnd2 & Hin2); [by rewrite Htab1|].
  set (db2 := let s := with_table (resource_table cls) rows2 (working db1) in
              Connection s s) in *.
  assert (table (resource_table cls) (working db2) = rows2) as Htab2
    by apply table_with_table.
  eexists msg1, db1, msg2, db2, _.
  split; [exact Hset1|]. split; [|split; [exact Hset2|split; [|split; [reflexivity|]]]].
  - apply (resource_get_found cls c k db1 (ResourceRow m (Some c) k v));
      rewrite ?Htab1; done.
  - apply (resource_get_found cls c k db2 (ResourceRow m (Some c) k v2));
      rewrite ?Htab2; done.
  - simpl. rewrite table_with_table.
    rewrite filter_fmap, length_fmap, list_filter_filter.
    rewrite (list_filter_iff _ (λ r, resource_key r
               = resource_key (ResourceRow m (Some c) k v2))).
    + by rewrite filter_key_of_row.
    + intros r. simpl. rewrite sql_eq_named. unfold resource_key. simpl.
      assert ((if include_content
               then <[resource_name cls:=r_content r]>
                      (<["mime_type":=r_type r]> {["key" := r_key r]})
               else <["mime_type":=r_type r]> {["key" := r_key r]} : dict)
              !! "key" = Some (r_key r)) as ->.
      { destruct Hcls as [-> | ->], include_content; by simplify_map_eq. }
      split; [by intros [[= ->] ->]|by intros [= -> ->]].
Qed.

Lemma upsert_round_trip_witness :
  ∃ msg1 db1 msg2 db2 entries,
    PersistentResource.set Snippet (Some "me") "k" "v" "text/plain" fresh
      = (Return msg1, db1) ∧
    PersistentResource.get Snippet (Some "me") "k" db1
      = (Return ("v", "text/plain"), db1) ∧
    PersistentResource.set Snippet (Some "me") "k" "v2" "text/plain" db1
      = (Return msg2, db2) ∧
    PersistentResource.get Snippet (Some "me") "k" db2
      = (Return ("v2", "text/plain"), db2) ∧
    PersistentResource.list Snippet (Some "me") false db2 = (Return entries, db2) ∧
    length (filter (λ e : dict, e !! "key" = Some "k") entries) = 1.
Proof.
  apply (upsert_round_trip Snippet "me" "k" "v" "v2" "text/plain" false fresh).
  - left. reflexivity.
  - simpl. apply NoDup_nil_2.
Defined.

(** C4.  The uniqueness invariant.  From a consistent connection (no open
    transaction, each table with at most one row per key), after any
    sequence of get, list, set and remove calls on the snippet, summary and
    rule handlers, whatever each call returned or raised, the database file
    and the connection agree and, for every context, absent or named, and
    every key or rule text, [snippet] and [summary] hold at most one row
    with that (context, key) and [rules] at most one row with that
    (context, rule). *)
Theorem uniqueness_invariant (calls : list call) (db : connection) :
  consistent db →
  let s := working (run calls db) in
  committed (run calls db) = s ∧
  ∀ (context : option string) (k : string),
    (length (filter (λ r, r_context r = context ∧ r_key r = k) (snippet s)) ≤ 1)%nat ∧
    (length (filter (λ r, r_context r = context ∧ r_key r = k) (summary s)) ≤ 1)%nat ∧
    (length (filter (λ r, rl_context r = context ∧ rl_rule r = k) (rules s)) ≤ 1)%nat.
Proof.
  intros Hdb. destruct (run_consistent calls db Hdb) as [Hclean (Hr & Hsn & Hsm)].
  simpl. split; [done|]. intros context k. repeat split.
  - rewrite (list_filter_iff _ (λ r, resource_key r = (context, k))).
    + by apply at_most_one_per_key.
    + intros r. unfold resource_key. split; [by intros [-> ->]|by intros [= -> ->]].
  - rewrite (list_filter_iff _ (λ r, resource_key r = (context, k))).
    + by apply at_most_one_per_key.
    + intros r. unfold resource_key. split; [by intros [-> ->]|by intros [= -> ->]].
  - rewrite (list_filter_iff _ (λ r, rule_key r = (context, k))).
    + by apply at_most_one_per_key.
    + intros r. unfold rule_key. split; [by intros [-> ->]|by intros [= -> ->]].
Qed.

Lemma fresh_consistent : consistent fresh.
Proof. repeat split; apply NoDup_nil_2. Qed.

(** Every store reached from the first start is consistent. *)
Lemma reachable_consistent (calls : list call) : consistent (run calls fresh).
Proof. apply run_consistent, fresh_consistent. Qed.

Lemma uniqueness_invariant_witness :
  let calls :=
    [rule_set None "MUST" "do X"; rule_set None "MAY" "do X";
     rule_set None "MAY" "do X"; rule_remove (Some "me") "do X";
     resource_set Snippet None "k" "v" "text/plain";
     resource_set Snippet None "k" "w" "text/plain";
     resource_get Snippet None "k"; resource_remove Summary (Some "me") "k"] in
  (length (filter (λ r, rl_context r = None ∧ rl_rule r = "do X")
             (rules (working (run calls fresh)))) ≤ 1)%nat.
Proof.
  intros calls.
  destruct (uniqueness_invariant calls fresh) as [_ Hall].
  - repeat split; apply NoDup_nil_2.
  - apply (Hall None "do X").
Defined.

(** C9.  Error atomicity.  With no transaction open, a core store call
    (get, list, set or remove on snippet, summary or rule) that raises
    leaves both the database file and the connection exactly as they were.
    In particular [remove] of a (context, key), or of a (context, rule), that
    no row has raises the "not found" error and changes nothing. *)
Theorem error_atomicity (db : connection) :
  committed db = working db →
  (∀ c e, (invoke c db).1 = Some e → (invoke c db).2 = db) ∧
  (∀ cls context key,
     (context, key) ∉ resource_key <$> table (resource_table cls) (working db) →
     PersistentResource.remove cls context key db =
       (Raise (ResourceError
          (capitalize (resource_name cls) +:+ " '" +:+ fmt context +:+ "/"
           +:+ key +:+ "' not found")), db)) ∧
  (∀ context rule,
     (context, rule) ∉ rule_key <$> rules (working db) →
     Rule.remove context rule db =
       (Raise (ResourceError
          ("Rule '" +:+ rule +:+ "' not found with the specified context")), db)).
Proof.
  intros Hclean. repeat split.
  - intros c e. by apply invoke_raise.
  - intros cls context key. by apply resource_remove_missing.
  - intros context rule Hout.
    by destruct (rule_remove_post context rule db) as [[-> _]|[_ Hin]].
Qed.

Lemma error_atomicity_witness :
  let db := (Rule.set (Some "me") "MUST" "do X" fresh).2 in
  PersistentResource.remove Snippet (Some "me") "nope" db =
    (Raise (ResourceError "Snippet 'me/nope' not found"), db) ∧
  Rule.remove (Some "me") "nope" db =
    (Raise (ResourceError "Rule 'nope' not found with the specified context"), db) ∧
  (invoke (rule_set (Some "me") "MUST" "do X") db).2 = db.
Proof.
  intros db.
  destruct (error_atomicity db) as (Hany & Hres & Hrule); [reflexivity|].
  split; [|split].
  - apply (Hres Snippet (Some "me") "nope"). simpl. apply not_elem_of_nil.
  - apply (Hrule (Some "me") "nope"). simpl.
    intros Hin. apply list_elem_of_singleton in Hin. discriminate Hin.
  - apply (Hany _ (ResourceError
                     "Rule already exists with the same policy and context")).
    reflexivity.
Defined.

(** ** The registry *)

Lemma split_on_absent (sep : ascii) (s : string) :
  contains sep s = false → split_on sep s = [s].
Proof.
  induction s as [|c s IH]; simpl; [done|]. intros Hno.
  apply orb_false_iff in Hno as [Hc Hs]. apply bool_decide_eq_false in Hc.
  rewrite decide_False by done. by rewrite IH.
Qed.

Lemma split_on_once (sep : ascii) (s t : string) :
  contains sep s = false → contains sep t = false →
  split_on sep (s +:+ String sep t) = [s; t].
Proof.
  intros Hs Ht. induction s as [|c s IH]; simpl.
  - rewrite decide_True by done. by rewrite split_on_absent.
  - simpl in Hs. apply orb_false_iff in Hs as [Hc Hs].
    apply bool_decide_eq_false in Hc.
    rewrite decide_False by done. by rewrite IH.
Qed.

Lemma contains_separator (sep : ascii) (s t : string) :
  contains sep (s +:+ String sep t) = true.
Proof.
  induction s as [|c s IH]; simpl.
  - by rewrite bool_decide_eq_true_2.
  - rewrite IH. apply orb_true_r.
Qed.

Lemma resources_lookup_unknown (resource : string) (my : MyContext.t) :
  resource ∉ ["rule"; "snippet"; "summary"] →
  MyContext.getitem resource my
  = (Raise (KeyError resource), MyContext.Registry true (MyContext.conn my)).
Proof.
  intros Hunknown.
  apply not_elem_of_cons in Hunknown as [Hrule Hrest].
  apply not_elem_of_cons in Hrest as [Hsnippet Hrest].
  apply not_elem_of_cons in Hrest as [Hsummary _].
  unfold MyContext.getitem, MyContext.resources, MyContext.db,
    MyContext.create_db. py_unfold. simpl.
  assert ((<["summary" := MyContext.ResourceHandler Summary]>
             (<["snippet" := MyContext.ResourceHandler Snippet]>
                (<["rule" := MyContext.RuleHandler]> ∅))
           : gmap string MyContext.handler) !! resource = None) as Hnone.
  { by rewrite !lookup_insert_ne, lookup_empty. }
  destruct (MyContext.db_opened my) eqn:Hopened; simpl; rewrite Hnone; [|done].
  destruct my. simpl in *. by subst.
Qed.

(** C7, as the code has it.  For every string that is not one of "rule",
    "snippet" and "summary": the resource handler [my_context_get_resource]
    raises the "Unrecognized resource type" error for it and leaves the
    registry untouched, the connection not even opened;
    [my_context_list_resource] does the same when the string holds no colon,
    alone or followed by one ":action" suffix; and the registry's own lookup
    raises [KeyError], after it has opened the connection to build the
    handlers. *)
Theorem unknown_resource_rejected (resource : string) (my : MyContext.t) :
  resource ∉ ["rule"; "snippet"; "summary"] →
  (∀ context key,
     my_context_get_resource context resource key my =
       (Raise (ResourceError ("Unrecognized resource type: " +:+ resource)), my)) ∧
  (contains ":" resource = false →
   ∀ context,
     my_context_list_resource context resource my =
       (Raise (ResourceError ("Unrecognized resource type: " +:+ resource)), my) ∧
     ∀ action,
       contains ":" action = false →
       my_context_list_resource context (resource +:+ ":" +:+ action) my =
         (Raise (ResourceError ("Unrecognized resource type: " +:+ resource)), my)) ∧
  MyContext.getitem resource my =
    (Raise (KeyError resource), MyContext.Registry true (MyContext.conn my)).
Proof.
  intros Hunknown. split; [|split].
  - intros context key. unfold my_context_get_resource.
    by rewrite decide_True.
  - intros Hcolon context. split.
    + unfold my_context_list_resource.
      rewrite Hcolon. py_unfold. simpl. by rewrite decide_True.
    + intros action Haction. unfold my_context_list_resource.
      change (resource +:+ ":" +:+ action)
        with (resource +:+ String ":"%char action).
      rewrite contains_separator, split_on_once by done.
      py_unfold. simpl. by rewrite decide_True.
  - by apply resources_lookup_unknown.
Qed.

Lemma unknown_resource_rejected_witness :
  let my := MyContext.Registry false fresh in
  my_context_get_resource "me" "widget" "k" my =
    (Raise (ResourceError "Unrecognized resource type: widget"), my) ∧
  my_context_list_resource "me" "widget" my =
    (Raise (ResourceError "Unrecognized resource type: widget"), my) ∧
  my_context_list_resource "me" "widget:all" my =
    (Raise (ResourceError "Unrecognized resource type: widget"), my).
Proof.
  intros my.
  destruct (unknown_resource_rejected "widget" my) as (Hget & Hlist & _).
  - intros Hin. repeat (apply elem_of_cons in Hin as [Hin|Hin]; [discriminate Hin|]).
    by apply elem_of_nil in Hin.
  - destruct (Hlist eq_refl "me") as [Hplain Hsuffix].
    split; [apply Hget|]. split; [apply Hplain|]. apply (Hsuffix "all"). reflexivity.
Defined.

(** C7 as stated fails on the registry: the lookup of an unknown name raises
    [KeyError], not a [ResourceError], and it has opened the connection. *)
Lemma registry_lookup_counterexample :
  ("widget" ∉ ["rule"; "snippet"; "summary"]) ∧
  MyContext.getitem "widget" (MyContext.Registry false fresh)
    = (Raise (KeyError "widget"), MyContext.Registry true fresh) ∧
  ¬ ∃ msg,
      (MyContext.getitem "widget" (MyContext.Registry false fresh)).1
      = Raise (ResourceError msg).
Proof.
  split; [|split].
  - intros Hin. repeat (apply elem_of_cons in Hin as [Hin|Hin]; [discriminate Hin|]).
    by apply elem_of_nil in Hin.
  - reflexivity.
  - intros [msg Hmsg]. vm_compute in Hmsg. discriminate Hmsg.
Qed.

(** The list handler parses an action suffix first: more than one colon
    raises [ValueError], and a known name with a suffix is served. *)
Lemma list_resource_colons :
  (my_context_list_resource "me" "a:b:c" (MyContext.Registry false fresh)).1
    = Raise (ValueError "too many values to unpack (expected 2)") ∧
  (my_context_list_resource "me" "snippet:all" (MyContext.Registry false fresh)).1
    = Return [].
Proof. split; reflexivity. Qed.

(** ** Strings *)

Lemma string_length_app (s t : string) :
  String.length (s +:+ t) = String.length s + String.length t.
Proof. induction s as [|c s IH]; simpl; [done|]. by rewrite IH. Qed.

Lemma substring_0_length (n : nat) (s : string) :
  String.length (String.substring 0 n s) = n `min` String.length s.
Proof.
  revert n. induction s as [|c s IH]; intros [|n]; simpl; try done.
  by rewrite IH.
Qed.

Lemma substring_0_app (s t : string) :
  String.substring 0 (String.length s) (s +:+ t) = s.
Proof.
  induction s as [|c s IH]; simpl; [by destruct t|]. by rewrite IH.
Qed.




(** [s[:-6]] takes the composed suffix off exactly when the target's base
    name has five characters. *)
Lemma drop_last6_suffix (s target_name : string) :
  String.length target_name = 5 →
  drop_last6 (s +:+ "." +:+ target_name) = s.
Proof.
  intros Hlen. unfold drop_last6.
  rewrite !string_length_app, Hlen. simpl.
  replace (String.length s + 6 - 6) with (String.length s) by lia.
  apply substring_0_app.
Qed.

Lemma drop_last6_other (s target_name : string) :
  s ≠ "" → String.length target_name ≠ 5 →
  drop_last6 (s +:+ "." +:+ target_name) ≠ s.
Proof.
  intros Hs Hlen Heq. apply (f_equal String.length) in Heq.
  unfold drop_last6 in Heq.
  rewrite substring_0_length, !string_length_app in Heq. simpl in Heq.
  destruct s; [done|]. simpl in Heq. lia.
Qed.

(** ** The backup manager *)

Section backup.
Variable target_name : string.
Variable time_ns : Z.
Variable name : option string.
Variable fs : filesystem.

Let chosen := Backup.chosen_name time_ns name.
Let path := Backup.backup_path target_name chosen.

Lemma create_present entry :
  backup_dir fs !! path = Some entry →
  Backup.create target_name time_ns name fs =
    (Raise (BackupError ("Backup already exists: " +:+ fmt_name chosen)), fs).
Proof.
  intros Hentry. unfold Backup.create. py_unfold. simpl.
  fold chosen. fold path. rewrite Hentry. by rewrite bool_decide_eq_true_2.
Qed.

Lemma create_absent content :
  backup_dir fs !! path = None → target_file fs = Some content →
  Backup.create target_name time_ns name fs =
    (Return chosen,
     Filesystem (Some content) (<[path := File content]> (backup_dir fs))).
Proof.
  intros Hfree Htarget. unfold Backup.create, Backup.copy_target_to.
  py_unfold. simpl. fold chosen. fold path. rewrite Hfree.
  rewrite bool_decide_eq_false_2 by (by intros [? ?]).
  rewrite Htarget. simpl. by rewrite Htarget.
Qed.

Lemma create_returns content returned fs1 :
  target_file fs = Some content →
  Backup.create target_name time_ns name fs = (Return returned, fs1) →
  returned = chosen ∧ backup_dir fs !! path = None ∧
  fs1 = Filesystem (Some content) (<[path := File content]> (backup_dir fs)).
Proof.
  intros Htarget Hcreate.
  destruct (backup_dir fs !! path) as [entry|] eqn:Hentry.
  - by rewrite (create_present entry) in Hcreate.
  - rewrite (create_absent content) in Hcreate by done.
    by injection Hcreate as <- <-.
Qed.
End backup.

Lemma restore_file target_name chosen fs content :
  backup_dir fs !! Backup.backup_path target_name chosen = Some (File content) →
  Backup.restore target_name chosen fs =
    (Return (), Filesystem (Some content) (backup_dir fs)).
Proof.
  intros Hentry. unfold Backup.restore, Backup.copy_to_target. py_unfold. simpl.
  rewrite bool_decide_eq_true_2 by (by rewrite Hentry).
  simpl. by rewrite Hentry.
Qed.


(** C3.  Backup round trip.  Whatever bytes the store file holds when
    [create] is called and returns a name, and whatever bytes are written
    over the store file afterwards, [restore] with the returned name
    returns and leaves the store file with exactly the bytes it had when the
    backup was created; the backup directory is as [create] left it. *)
Theorem backup_round_trip (target_name : string) (time_ns : Z)
    (name : option string) (content junk : list byte) (returned : name_value)
    (fs fs1 : filesystem) :
  target_file fs = Some content →
  Backup.create target_name time_ns name fs = (Return returned, fs1) →
  ∃ fs2,
    Backup.restore target_name returned (overwrite_target junk fs1)
      = (Return (), fs2) ∧
    target_file fs2 = Some content ∧
    backup_dir fs2 = backup_dir fs1.
Proof.
  intros Htarget Hcreate.
  destruct (create_returns _ _ _ _ _ _ _ Htarget Hcreate) as (-> & Hfree & ->).
  eexists. split.
  - apply (restore_file _ _ _ content). simpl. apply lookup_insert_eq.
  - done.
Qed.

Lemma backup_round_trip_witness :
  let fs := Filesystem (Some [x53; x51; x4c]) ∅ in
  ∃ fs2,
    Backup.restore "my.db" (NameInt 1700000000000000000)
      (overwrite_target [x00] (Backup.create "my.db" 1700000000000000000 None fs).2)
      = (Return (), fs2) ∧
    target_file fs2 = Some [x53; x51; x4c] ∧
    backup_dir fs2
    = backup_dir (Backup.create "my.db" 1700000000000000000 None fs).2.
Proof.
  intros fs.
  apply (backup_round_trip "my.db" 1700000000000000000 None [x53; x51; x4c]
           [x00] (NameInt 1700000000000000000) fs).
  - reflexivity.
  - reflexivity.
Defined.




(** C6 on a target whose base name does not have five characters.
    [list] cuts six characters off each file name, whatever the target.  A
    directory that holds the one backup [s], composed as [create] composes
    it, is listed as a single name, and that name is not [s]. *)
Theorem backup_list_wrong_suffix (target_name s : string)
    (target : option (list byte)) (content : list byte) :
  s ≠ "" → String.length target_name ≠ 5 →
  let fs := Filesystem target {[ s +:+ "." +:+ target_name := File content ]} in
  ∃ listed,
    Backup.list fs = (Return [listed], fs) ∧
    listed = drop_last6 (s +:+ "." +:+ target_name) ∧
    listed ≠ s.
Proof.
  intros Hs Hlen fs. eexists. split; [|split; [reflexivity|]].
  - unfold Backup.list. py_unfold. simpl. by rewrite map_to_list_singleton.
  - by apply drop_last6_other.
Qed.

Lemma backup_list_wrong_suffix_witness :
  Backup.list (Filesystem None {[ "snap.store.sqlite" := File [] ]})
  = (Return ["snap.store."],
     Filesystem None {[ "snap.store.sqlite" := File [] ]}).
Proof.
  destruct (backup_list_wrong_suffix "store.sqlite" "snap" None [])
    as (listed & Hlist & -> & _); [done|simpl; lia|].
  exact Hlist.
Defined.

(** With a five-character base name, such as the server's "my.db", the
    listed name is the backup's name; and an empty directory lists as the
    empty sequence. *)
Lemma backup_list_five_characters (target_name : string) (chosen : name_value)
    (target : option (list byte)) (content : list byte) :
  String.length target_name = 5 →
  let fs := Filesystem target
              {[ Backup.backup_path target_name chosen := File content ]} in
  Backup.list fs = (Return [fmt_name chosen], fs).
Proof.
  intros Hlen fs. unfold Backup.list. py_unfold. simpl.
  rewrite map_to_list_singleton. simpl.
  unfold Backup.backup_path. by rewrite drop_last6_suffix.
Qed.

Lemma backup_list_empty (target : option (list byte)) :
  Backup.list (Filesystem target ∅)
  = (Return [], Filesystem target ∅).
Proof. unfold Backup.list. py_unfold. simpl. by rewrite map_to_list_empty. Qed.

(** * More of the store *)

(** ** Lookups *)

Lemma resource_get_missing cls c key db :
  (Some c, key) ∉ resource_key <$> table (resource_table cls) (working db) →
  PersistentResource.get cls (Some c) key db =
    (Raise (ResourceError
       (capitalize (resource_name cls) +:+ " (" +:+ c +:+ "/" +:+ key
        +:+ ") not found")), db).
Proof.
  intros Hout. unfold PersistentResource.get. py_unfold. simpl.
  rewrite filter_drops_all; [done|].
  intros r Hr [Hc Hk]. apply Hout. apply list_elem_of_fmap. exists r.
  split; [|done]. apply sql_eq_named in Hc. unfold resource_key. by rewrite Hc, Hk.
Qed.

Lemma resource_get_returns_iff cls c key db content type :
  let rows := table (resource_table cls) (working db) in
  NoDup (resource_key <$> rows) →
  PersistentResource.get cls (Some c) key db = (Return (content, type), db)
  ↔ ResourceRow type (Some c) key content ∈ rows.
Proof.
  intros rows Hnd. split.
  - intros Hget.
    destruct (decide ((Some c, key) ∈ resource_key <$> rows)) as [Hin|Hout].
    + apply list_elem_of_fmap in Hin as ([t c' k' v] & [= <- <-] & Hr).
      rewrite (resource_get_found cls c key db _ Hnd Hr) in Hget by done.
      by injection Hget as <- <-.
    + by rewrite resource_get_missing in Hget.
  - intros Hr. by rewrite (resource_get_found cls c key db _ Hnd Hr).
Qed.

(** X1.  [PersistentResource.get] under a named context is the lookup of
    the table: on a table with unique keys it returns [(content, type)]
    exactly when the row (type, context, key, content) is stored, and it
    raises the "not found" error, changing nothing, exactly when no row has
    that (context, key). *)
Theorem resource_get_lookup (cls : resource_class) (c key : string)
    (db : connection) :
  let rows := table (resource_table cls) (working db) in
  NoDup (resource_key <$> rows) →
  (∀ content type,
     PersistentResource.get cls (Some c) key db = (Return (content, type), db)
     ↔ ResourceRow type (Some c) key content ∈ rows) ∧
  (PersistentResource.get cls (Some c) key db =
     (Raise (ResourceError
        (capitalize (resource_name cls) +:+ " (" +:+ c +:+ "/" +:+ key
         +:+ ") not found")), db)
   ↔ (Some c, key) ∉ resource_key <$> rows).
Proof.
  intros rows Hnd. split.
  - intros content type. by apply resource_get_returns_iff.
  - split; [|apply resource_get_missing].
    intros Hget Hin.
    apply list_elem_of_fmap in Hin as ([t c' k' v] & [= <- <-] & Hr).
    by rewrite (resource_get_found cls c key db _ Hnd Hr) in Hget.
Qed.

Lemma resource_get_lookup_witness :
  let db := (PersistentResource.set Snippet (Some "me") "k" "v" "text/plain" fresh).2 in
  PersistentResource.get Snippet (Some "me") "k" db = (Return ("v", "text/plain"), db) ∧
  PersistentResource.get Snippet (Some "me") "other" db =
    (Raise (ResourceError "Snippet (me/other) not found"), db).
Proof.
  intros db.
  destruct (resource_get_lookup Snippet "me" "k" db) as [Hfound _].
  { simpl. apply NoDup_singleton. }
  destruct (resource_get_lookup Snippet "me" "other" db) as [_ Hmissing].
  { simpl. apply NoDup_singleton. }
  split.
  - apply Hfound. simpl. left.
  - apply Hmissing. simpl. intros Hin. apply list_elem_of_singleton in Hin.
    discriminate Hin.
Defined.

(** ** What a write leaves alone *)

Lemma filter_update_frame {A} (P Q : A → Prop)
    `{!∀ r, Decision (P r), !∀ r, Decision (Q r)} (f : A → A) (l : list A) :
  (∀ r, P r → ¬ Q r) → (∀ r, P r → ¬ Q (f r)) →
  filter Q ((λ r, if decide (P r) then f r else r) <$> l) = filter Q l.
Proof.
  intros Hold Hnew. induction l as [|r l IH]; [done|]. rewrite fmap_cons.
  destruct (decide (P r)) as [HP|HP].
  - rewrite !filter_cons_False by auto. exact IH.
  - destruct (decide (Q r)) as [HQ|HQ].
    + rewrite !filter_cons_True by done. by rewrite IH.
    + rewrite !filter_cons_False by done. exact IH.
Qed.

Lemma filter_snoc_frame {A} (Q : A → Prop) `{!∀ r, Decision (Q r)}
    (l : list A) (new : A) :
  ¬ Q new → filter Q (l ++ [new])%list = filter Q l.
Proof.
  intros Hnew. rewrite filter_app, (filter_cons_False _ new) by done.
  by rewrite filter_nil, app_nil_r.
Qed.

Lemma rules_with_table tid rows s : rules (with_table tid rows s) = rules s.
Proof. by destruct tid. Qed.

Lemma table_with_table_ne tid tid' rows s :
  tid' ≠ tid → table tid' (with_table tid rows s) = table tid' s.
Proof. by destruct tid, tid'. Qed.

(** The table after [PersistentResource.set], whichever branch it took,
    selects the same rows as before under any condition that excludes the
    written key. *)
Lemma resource_set_filter_frame cls context key resource mime_type db
    (Q : resource_row → Prop) `{!∀ r, Decision (Q r)} :
  (∀ r, Q r → resource_key r ≠ (context, key)) →
  let tid := resource_table cls in
  let db' := (PersistentResource.set cls context key resource mime_type db).2 in
  filter Q (table tid (working db')) = filter Q (table tid (working db)) ∧
  rules (working db') = rules (working db) ∧
  ∀ tid', tid' ≠ tid → table tid' (working db') = table tid' (working db).
Proof.
  intros HQ tid db'. subst db'.
  destruct (decide ((context, key) ∈ resource_key <$> table tid (working db))).
  - rewrite resource_set_existing by done. simpl. rewrite table_with_table.
    split; [|split].
    + apply filter_update_frame; intros r Hk Hq; by apply (HQ _ Hq).
    + apply rules_with_table.
    + intros tid' Hne. by apply table_with_table_ne.
  - rewrite resource_set_new by done. simpl. rewrite table_with_table.
    split; [|split].
    + apply filter_snoc_frame. intros Hq. by apply (HQ _ Hq).
    + apply rules_with_table.
    + intros tid' Hne. by apply table_with_table_ne.
Qed.

Lemma resource_get_result cls context key db :
  (PersistentResource.get cls context key db).1 =
  match head (filter (λ r, sql_eq (r_context r) context ∧ r_key r = key)
                (table (resource_table cls) (working db))) with
  | None =>
      Raise (ResourceError
        (capitalize (resource_name cls) +:+ " (" +:+ fmt context +:+ "/"
         +:+ key +:+ ") not found"))
  | Some r => Return (r_content r, r_type r)
  end.
Proof.
  unfold PersistentResource.get. py_unfold. simpl. by destruct (head _).
Qed.

Lemma resource_list_result cls context include_content db :
  (PersistentResource.list cls context include_content db).1 =
  Return ((λ r,
             if include_content
             then <[resource_name cls := r_content r]>
                    (<["mime_type" := r_type r]> {["key" := r_key r]})
             else <["mime_type" := r_type r]> {["key" := r_key r]})
          <$> filter (λ r, sql_eq (r_context r) context)
                (table (resource_table cls) (working db))).
Proof. done. Qed.

(** X2.  [PersistentResource.set] touches one key of one table.  After
    [set] of (context, key): [get] of any other (context, key) of the same
    resource gives what it gave before; [list] of any other context gives
    what it gave before; the [rules] table and the other resource table are
    as they were. *)
Theorem resource_set_frame (cls : resource_class) (context : option string)
    (key resource mime_type c' k' : string) (include_content : bool)
    (db : connection) :
  (Some c', k') ≠ (context, key) →
  let db' := (PersistentResource.set cls context key resource mime_type db).2 in
  (PersistentResource.get cls (Some c') k' db').1
    = (PersistentResource.get cls (Some c') k' db).1 ∧
  (Some c' ≠ context →
   (PersistentResource.list cls (Some c') include_content db').1
     = (PersistentResource.list cls (Some c') include_content db).1) ∧
  rules (working db') = rules (working db) ∧
  ∀ tid, tid ≠ resource_table cls → table tid (working db') = table tid (working db).
Proof.
  intros Hne db'.
  destruct (resource_set_filter_frame cls context key resource mime_type db
              (λ r, sql_eq (r_context r) (Some c') ∧ r_key r = k'))
    as (Hget & Hrules & Htables).
  { intros r [Hc Hk] Hkey. apply Hne. apply sql_eq_named in Hc.
    rewrite <- Hkey. unfold resource_key. by rewrite Hc, Hk. }
  split; [|split; [|by split]].
  - subst db'. by rewrite !resource_get_result, Hget.
  - intros Hctx.
    destruct (resource_set_filter_frame cls context key resource mime_type db
                (λ r, sql_eq (r_context r) (Some c'))) as (Hlist & _).
    { intros r Hc Hkey. apply Hctx. apply sql_eq_named in Hc.
      injection Hkey as <- _. by rewrite Hc. }
    subst db'. by rewrite !resource_list_result, Hlist.
Qed.

Lemma resource_set_frame_witness :
  let db := (PersistentResource.set Snippet (Some "me") "k" "v" "text/plain" fresh).2 in
  (PersistentResource.get Snippet (Some "me") "k"
     (PersistentResource.set Snippet (Some "me") "other" "w" "text/plain" db).2).1
  = Return ("v", "text/plain").
Proof.
  intros db.
  destruct (resource_set_frame Snippet (Some "me") "other" "w" "text/plain"
              "me" "k" false db) as [Hget _].
  - intros Heq. discriminate Heq.
  - rewrite Hget. reflexivity.
Defined.

(** ** Removal *)

Lemma with_table_twice tid rows rows' s :
  with_table tid rows (with_table tid rows' s) = with_table tid rows s.
Proof. by destruct tid. Qed.

Lemma resource_remove_present cls c key db :
  let tid := resource_table cls in
  (Some c, key) ∈ resource_key <$> table tid (working db) →
  PersistentResource.remove cls (Some c) key db =
    (Return (capitalize (resource_name cls) +:+ " '" +:+ c +:+ "/" +:+ key
             +:+ "' removed successfully"),
     let s := with_table tid
                (filter (λ r, resource_key r ≠ (Some c, key)) (table tid (working db)))
                (working db) in
     Connection s s).
Proof.
  intros tid Hin. apply list_elem_of_fmap in Hin as (r0 & Hk & Hr0).
  assert (∀ r, sql_eq (r_context r) (Some c) ∧ r_key r = key
               ↔ resource_key r = (Some c, key)) as HP.
  { intros r. rewrite sql_eq_named. unfold resource_key.
    split; [by intros [-> ->]|by intros [= -> ->]]. }
  unfold PersistentResource.remove. py_unfold. simpl. fold tid.
  rewrite (list_filter_iff (λ r, ¬ _) (λ r, resource_key r ≠ (Some c, key)))
    by (intros r; by rewrite HP).
  destruct (decide (0 < _)) as [_|Hzero]; [done|].
  exfalso. apply Hzero.
  assert (r0 ∈ filter (λ r, sql_eq (r_context r) (Some c) ∧ r_key r = key)
                 (table tid (working db))) as Hsel
    by (apply list_elem_of_filter; split; [by apply HP|done]).
  destruct (filter _ (table tid (working db))); [by apply elem_of_nil in Hsel|].
  simpl. lia.
Qed.

(** X3.  Insert and delete compose.  From a connection with no open
    transaction and unique keys, [set] of a (named context, key) followed by
    [remove] of the same pair: both return, afterwards no row has the pair
    and [get] raises "not found"; and when the pair was not stored before,
    the connection is exactly what it was before the [set]. *)
Theorem resource_set_remove (cls : resource_class) (c key resource mime_type : string)
    (db : connection) :
  let tid := resource_table cls in
  committed db = working db →
  NoDup (resource_key <$> table tid (working db)) →
  ∃ msg db1 db2,
    PersistentResource.set cls (Some c) key resource mime_type db = (Return msg, db1) ∧
    PersistentResource.remove cls (Some c) key db1 =
      (Return (capitalize (resource_name cls) +:+ " '" +:+ c +:+ "/" +:+ key
               +:+ "' removed successfully"), db2) ∧
    ((Some c, key) ∉ resource_key <$> table tid (working db2)) ∧
    PersistentResource.get cls (Some c) key db2 =
      (Raise (ResourceError
         (capitalize (resource_name cls) +:+ " (" +:+ c +:+ "/" +:+ key
          +:+ ") not found")), db2) ∧
    ((Some c, key) ∉ resource_key <$> table tid (working db) → db2 = db).
Proof.
  intros tid Hclean Hnd.
  destruct (resource_set_post cls (Some c) key resource mime_type db Hnd)
    as (msg & rows1 & Hset & Hnd1 & Hin1).
  set (db1 := let s := with_table tid rows1 (working db) in Connection s s) in *.
  assert (table tid (working db1) = rows1) as Htab1 by apply table_with_table.
  assert ((Some c, key) ∈ resource_key <$> table tid (working db1)) as Hkey1.
  { rewrite Htab1. by apply (list_elem_of_fmap_2 resource_key) in Hin1. }
  pose proof (resource_remove_present cls c key db1 Hkey1) as Hremove.
  set (db2 := let s := with_table tid
                         (filter (λ r, resource_key r ≠ (Some c, key))
                            (table tid (working db1)))
                         (working db1) in Connection s s) in *.
  assert ((Some c, key) ∉ resource_key <$> table tid (working db2)) as Hgone.
  { simpl. rewrite table_with_table. intros Hin.
    apply list_elem_of_fmap in Hin as (r & Hk & Hr).
    apply list_elem_of_filter in Hr as [Hne _]. by apply Hne. }
  exists msg, db1, db2. split; [exact Hset|]. split; [exact Hremove|].
  split; [exact Hgone|]. split; [by apply resource_get_missing|].
  intros Hout. fold tid in Hset.
  rewrite (resource_set_new cls (Some c) key resource mime_type db Hout) in Hset.
  injection Hset as _ Hrows.
  assert (rows1 = (table tid (working db)
                   ++ [ResourceRow mime_type (Some c) key resource])%list) as ->.
  { apply (f_equal (table tid)) in Hrows. fold tid in Hrows.
    by rewrite !table_with_table in Hrows. }
  subst db2 db1. simpl. rewrite table_with_table, with_table_twice.
  rewrite filter_snoc_frame by (intros Hne; by apply Hne).
  rewrite filter_keeps_all.
  - rewrite with_table_table. destruct db. simpl in *. by subst.
  - intros r Hr Heq. apply Hout. rewrite <- Heq. by apply list_elem_of_fmap_2.
Qed.

Lemma resource_set_remove_witness :
  ∃ msg db1,
    PersistentResource.set Summary (Some "me") "k" "v" "text/markdown" fresh
      = (Return msg, db1) ∧
    PersistentResource.remove Summary (Some "me") "k" db1
      = (Return "Summary 'me/k' removed successfully", fresh).
Proof.
  destruct (resource_set_remove Summary "me" "k" "v" "text/markdown" fresh)
    as (msg & db1 & db2 & Hset & Hremove & _ & _ & Hback).
  - reflexivity.
  - simpl. apply NoDup_nil_2.
  - exists msg, db1. split; [exact Hset|].
    rewrite <- Hback; [exact Hremove|]. simpl. apply not_elem_of_nil.
Defined.

(** ** Rows stored under an absent context *)

(** X4.  [PersistentResource.set] accepts an absent context and stores the
    row with a NULL context, but no other method of the class reaches that
    row: [get] and [remove] with the absent context raise "not found" and
    [list] returns nothing, the row staying where it is.  Only [set] finds
    it again, and then reports an update. *)
Theorem resource_absent_context (cls : resource_class)
    (key resource mime_type : string) (db : connection) :
  let tid := resource_table cls in
  let Name := capitalize (resource_name cls) in
  NoDup (resource_key <$> table tid (working db)) →
  ∃ msg db1,
    PersistentResource.set cls None key resource mime_type db = (Return msg, db1) ∧
    ResourceRow mime_type None key resource ∈ table tid (committed db1) ∧
    PersistentResource.get cls None key db1 =
      (Raise (ResourceError (Name +:+ " (None/" +:+ key +:+ ") not found")), db1) ∧
    (∀ include_content,
       PersistentResource.list cls None include_content db1 = (Return [], db1)) ∧
    PersistentResource.remove cls None key db1 =
      (Raise (ResourceError (Name +:+ " 'None/" +:+ key +:+ "' not found")), db1) ∧
    ∃ db2,
      PersistentResource.set cls None key resource mime_type db1 =
        (Return ("Existing "
                 +:+ (resource_name cls +:+ " (" +:+ "None" +:+ "/" +:+ key
                      +:+ " " +:+ mime_type +:+ ")")
                 +:+ " updated"), db2).
Proof.
  intros tid Name Hnd.
  destruct (resource_set_post cls None key resource mime_type db Hnd)
    as (msg & rows1 & Hset & Hnd1 & Hin1).
  set (db1 := let s := with_table tid rows1 (working db) in Connection s s) in *.
  assert (table tid (working db1) = rows1) as Htab1 by apply table_with_table.
  assert (∀ (r : resource_row) (Q : Prop), ¬ (sql_eq (r_context r) None ∧ Q))
    as Hnull by (intros r Q [Hc _]; by apply sql_eq_null in Hc).
  exists msg, db1. split; [exact Hset|]. split; [by rewrite <- Htab1 in Hin1|].
  split; [|split; [|split]].
  - unfold PersistentResource.get. py_unfold. simpl.
    rewrite filter_drops_all; [done|]. intros r _. apply Hnull.
  - intros include_content. unfold PersistentResource.list. py_unfold. simpl.
    rewrite filter_drops_all; [done|]. intros r _. apply sql_eq_null.
  - unfold PersistentResource.remove. py_unfold. simpl.
    rewrite (filter_drops_all (λ r, sql_eq (r_context r) None ∧ r_key r = key))
      by (intros r _; apply Hnull).
    rewrite filter_keeps_all by (intros r _; apply Hnull).
    simpl. by rewrite table_with_table, with_table_twice.
  - eexists. apply resource_set_existing. fold tid. rewrite Htab1.
    by apply (list_elem_of_fmap_2 resource_key) in Hin1.
Qed.

Lemma resource_absent_context_witness :
  let db1 := (PersistentResource.set Snippet None "k" "v" "text/plain" fresh).2 in
  PersistentResource.get Snippet None "k" db1 =
    (Raise (ResourceError "Snippet (None/k) not found"), db1) ∧
  PersistentResource.remove Snippet None "k" db1 =
    (Raise (ResourceError "Snippet 'None/k' not found"), db1).
Proof.
  intros db1.
  destruct (resource_absent_context Snippet "k" "v" "text/plain" fresh)
    as (msg & db1' & Hset & _ & Hget & _ & Hremove & _).
  - simpl. apply NoDup_nil_2.
  - assert (db1' = db1) as -> by (by injection Hset as _ <-).
    split; [exact Hget|exact Hremove].
Defined.

(** ** Listing *)

Lemma entry_with_content_inj (name : string) (k k' t t' v v' : string) :
  name ≠ "key" → name ≠ "mime_type" →
  (<[name := v]> (<["mime_type" := t]> {["key" := k]}) : dict)
  = <[name := v']> (<["mime_type" := t']> {["key" := k']}) →
  k = k' ∧ t = t' ∧ v = v'.
Proof.
  intros Hkey Hmime Heq.
  pose proof (f_equal (.!! "key") Heq) as Hk.
  pose proof (f_equal (.!! "mime_type") Heq) as Ht.
  pose proof (f_equal (.!! name) Heq) as Hv.
  rewrite !lookup_insert_eq in Hv.
  rewrite !(lookup_insert_ne _ name "mime_type"), !lookup_insert_eq in Ht by done.
  rewrite !(lookup_insert_ne _ name "key"), !(lookup_insert_ne _ "mime_type" "key"),
    !lookup_singleton_eq in Hk by done.
  by simplify_eq.
Qed.

(** X5.  [list] agrees with [get].  On the snippet and summary resources,
    with unique keys and a named context, [list] with content returns an
    entry {key, mime_type, content} exactly when [get] of that key returns
    that content and MIME type. *)
Theorem resource_list_agrees_with_get (cls : resource_class) (c : string)
    (db : connection) :
  cls = Snippet ∨ cls = Summary →
  NoDup (resource_key <$> table (resource_table cls) (working db)) →
  ∃ entries,
    PersistentResource.list cls (Some c) true db = (Return entries, db) ∧
    ∀ key content type,
      <[resource_name cls := content]> (<["mime_type" := type]> {["key" := key]})
        ∈ entries
      ↔ PersistentResource.get cls (Some c) key db = (Return (content, type), db).
Proof.
  intros Hcls Hnd. eexists. split; [reflexivity|].
  intros key content type.
  rewrite (resource_get_returns_iff cls c key db content type Hnd).
  rewrite list_elem_of_fmap. split.
  - intros ([t c' k v] & Heq & Hr). apply list_elem_of_filter in Hr as [Hc Hr].
    apply sql_eq_named in Hc. simpl in *. subst c'.
    apply entry_with_content_inj in Heq as (-> & -> & ->);
      [done|by destruct Hcls as [-> | ->]..].
  - intros Hr. eexists. split; [|apply list_elem_of_filter; split; [|exact Hr]].
    + done.
    + by apply sql_eq_named.
Qed.

Lemma resource_list_agrees_with_get_witness :
  let db := (PersistentResource.set Snippet (Some "me") "k" "v" "text/plain" fresh).2 in
  ∃ entries,
    PersistentResource.list Snippet (Some "me") true db = (Return entries, db) ∧
    <["snippet" := "v"]> (<["mime_type" := "text/plain"]> {["key" := "k"]})
      ∈ entries.
Proof.
  intros db.
  destruct (resource_list_agrees_with_get Snippet "me" db)
    as (entries & Hlist & Hiff).
  - left. reflexivity.
  - simpl. apply NoDup_singleton.
  - exists entries. split; [exact Hlist|]. apply (Hiff "k" "v" "text/plain").
    reflexivity.
Defined.

(** ** Rules *)

Lemma rule_entry_inj (p p' r r' : string) :
  (<["rule" := r]> {["policy" := p]} : dict) = <["rule" := r']> {["policy" := p']} →
  p = p' ∧ r = r'.
Proof.
  intros Heq.
  pose proof (f_equal (.!! "rule") Heq) as Hr.
  pose proof (f_equal (.!! "policy") Heq) as Hp.
  rewrite !lookup_insert_eq in Hr.
  rewrite !(lookup_insert_ne _ "rule" "policy"), !lookup_singleton_eq in Hp by done.
  by simplify_eq.
Qed.

(** X6.  [Rule.list] under a named context returns exactly the stored
    rules of that context: an entry {policy, rule} is listed if and only if
    the row (context, policy, rule) is in the table.  The call never raises
    and changes nothing. *)
Theorem rule_list_exact (c : string) (include_content : bool) (db : connection) :
  ∃ entries,
    Rule.list (Some c) include_content db = (Return entries, db) ∧
    ∀ policy rule,
      <["rule" := rule]> {["policy" := policy]} ∈ entries
      ↔ RuleRow (Some c) policy rule ∈ rules (working db).
Proof.
  eexists. split; [reflexivity|]. intros policy rule.
  rewrite list_elem_of_fmap. split.
  - intros ([c' p r] & Heq & Hr). apply list_elem_of_filter in Hr as [Hc Hr].
    apply sql_eq_named in Hc. simpl in *. subst c'.
    by apply rule_entry_inj in Heq as [-> ->].
  - intros Hr. exists (RuleRow (Some c) policy rule). split; [done|].
    apply list_elem_of_filter. split; [by apply sql_eq_named|done].
Qed.

(** The connection after [Rule.set]: untouched, or committed with the
    matching rows given the new policy, or committed with one row appended;
    the last two only for an allowed policy. *)
Lemma rule_set_cases context policy rule db :
  let rows := rules (working db) in
  let db' := (Rule.set context policy rule db).2 in
  db' = db ∨
  (policy ∈ ALLOWED_RULE_POLICIES ∧
   (db' = (let s := with_rules
                      ((λ r, if decide (rl_rule r = rule ∧ sql_is (rl_context r) context)
                             then RuleRow (rl_context r) policy (rl_rule r) else r)
                       <$> rows) (working db) in
           Connection s s) ∨
    db' = (let s := with_rules (rows ++ [RuleRow context policy rule])%list
                      (working db) in
           Connection s s))).
Proof.
  intros rows db'. subst db'. unfold Rule.set.
  destruct (decide (policy ∉ _)) as [Hbad|Hok]; [by left|].
  apply dec_stable in Hok. py_unfold. simpl.
  destruct (head _) as [row|]; simpl.
  - destruct (decide (rl_policy row = policy)); [by left|].
    destruct (decide (Forall _ _)) as [_|Hn]; [right; split; [done|by left]|].
    by left.
  - destruct (decide (Rule.check _)); [|by left].
    destruct (decide (Exists _ _)); [by left|].
    right. split; [done|by right].
Qed.

(** X7.  Rule namespaces are separate.  [Rule.set] under one context,
    absent or named, leaves what [Rule.list] returns for every other named
    context as it was, and never touches the [snippet] and [summary]
    tables. *)
Theorem rule_set_other_context (context : option string) (policy rule c' : string)
    (include_content : bool) (db : connection) :
  Some c' ≠ context →
  let db' := (Rule.set context policy rule db).2 in
  (Rule.list (Some c') include_content db').1
    = (Rule.list (Some c') include_content db).1 ∧
  snippet (working db') = snippet (working db) ∧
  summary (working db') = summary (working db).
Proof.
  intros Hne db'.
  destruct (rule_set_cases context policy rule db) as [Hsame|[_ [Hupd|Hnew]]];
    fold db' in Hsame || fold db' in Hupd || fold db' in Hnew.
  - by rewrite Hsame.
  - rewrite Hupd. split; [|done]. unfold Rule.list. py_unfold. simpl.
    rewrite filter_update_frame; [done|..].
    + intros r [_ Hc] Hq. apply Hne. apply sql_eq_named in Hq. congruence.
    + intros r [_ Hc] Hq. apply Hne. apply sql_eq_named in Hq. simpl in Hq.
      congruence.
  - rewrite Hnew. split; [|done]. unfold Rule.list. py_unfold. simpl.
    rewrite filter_snoc_frame; [done|].
    intros Hq. apply Hne. by apply sql_eq_named in Hq.
Qed.

Lemma rule_set_other_context_witness :
  let db := (Rule.set (Some "me") "MUST" "do X" fresh).2 in
  (Rule.list (Some "me") false (Rule.set (Some "work") "MAY" "do Y" db).2).1
  = (Rule.list (Some "me") false db).1.
Proof.
  intros db.
  destruct (rule_set_other_context (Some "work") "MAY" "do Y" "me" false db)
    as [Hlist _].
  - intros Heq. discriminate Heq.
  - exact Hlist.
Defined.

(** X8.  A rule can be taken back.  With no transaction open, [Rule.set]
    of an allowed policy for a (context, rule) that is not stored, the
    context absent or named, returns "New rule added"; [Rule.remove] of the
    same (context, rule) then returns and the connection is exactly what it
    was before the [set]; a second [remove] raises "not found". *)
Theorem rule_set_remove (context : option string) (policy rule : string)
    (db : connection) :
  committed db = working db →
  policy ∈ ALLOWED_RULE_POLICIES →
  (context, rule) ∉ rule_key <$> rules (working db) →
  ∃ db1,
    Rule.set context policy rule db = (Return "New rule added", db1) ∧
    Rule.remove context rule db1 =
      (Return ("Rule '" +:+ rule +:+ "' removed successfully"), db) ∧
    Rule.remove context rule db =
      (Raise (ResourceError
         ("Rule '" +:+ rule +:+ "' not found with the specified context")), db).
Proof.
  intros Hclean Hok Hout. eexists. split; [by apply rule_set_new|]. split.
  - match goal with
    | |- Rule.remove _ _ ?d = _ =>
        destruct (rule_remove_post context rule d) as [[_ Hno]|[-> _]]
    end.
    + destruct Hno. simpl. rewrite fmap_app. apply elem_of_app. right. by left.
    + simpl. rewrite filter_snoc_frame by (intros Hne; by apply Hne).
      rewrite filter_keeps_all.
      * destruct db as [cm [rl sn sm]]. simpl in *. by subst.
      * intros r Hr Heq. apply Hout. rewrite <- Heq. by apply list_elem_of_fmap_2.
  - by destruct (rule_remove_post context rule db) as [[-> _]|[_ Hin]].
Qed.

Lemma rule_set_remove_witness :
  ∃ db1,
    Rule.set None "MUST" "do X" fresh = (Return "New rule added", db1) ∧
    Rule.remove None "do X" db1 = (Return "Rule 'do X' removed successfully", fresh).
Proof.
  destruct (rule_set_remove None "MUST" "do X" fresh) as (db1 & Hset & Hremove & _).
  - reflexivity.
  - by vm_compute.
  - simpl. apply not_elem_of_nil.
  - exists db1. split; [exact Hset|exact Hremove].
Defined.

(** ** Each handler keeps to its table *)

Lemma resource_remove_state cls context key db :
  let tid := resource_table cls in
  (PersistentResource.remove cls context key db).2 =
    (let s := with_table tid
                (filter (λ r, ¬ (sql_eq (r_context r) context ∧ r_key r = key))
                   (table tid (working db)))
                (working db) in
     Connection s s).
Proof.
  destruct (resource_remove_run cls context key db) as (out & Hrun & _).
  by rewrite Hrun.
Qed.


(** X9.  A call on one handler changes no other handler's table: a call on
    a snippet or summary handler leaves [rules] and the other resource table
    as they were, and a call on the rule handler leaves [snippet] and
    [summary] as they were, whatever the call returns or raises. *)
Theorem calls_keep_to_their_table (c : call) (db : connection) :
  let s := working db in
  let s' := working (invoke c db).2 in
  match c with
  | resource_get cls _ _ | resource_list cls _ _
  | resource_set cls _ _ _ _ | resource_remove cls _ _ =>
      rules s' = rules s ∧
      ∀ tid, tid ≠ resource_table cls → table tid s' = table tid s
  | rule_get _ _ | rule_list _ _ | rule_set _ _ _ | rule_remove _ _ =>
      snippet s' = snippet s ∧ summary s' = summary s
  end.
Proof.
  destruct c; simpl.
  - by rewrite resource_get_state.
  - done.
  - destruct (resource_set_filter_frame cls context key resource mime_type db
                (λ _, False)) as (_ & Hrules & Htables); done.
  - rewrite resource_remove_state. simpl. split.
    + apply rules_with_table.
    + intros tid Hne. by apply table_with_table_ne.
  - done.
  - done.
  - by destruct (rule_set_cases context policy rule db)
      as [->|[_ [->| ->]]].
  - by destruct (rule_remove_post context rule db) as [[-> _]|[-> _]].
Qed.

(** ** The policies in the table *)



(** * More of the backup manager *)




(** ** [Backup.remove] and [Backup.restore] *)








(** ** [Backup.clear] *)

Lemma unlink_file (path : string) (content : list byte) (fs : filesystem) :
  backup_dir fs !! path = Some (File content) →
  Backup.unlink path fs =
    (Return (), Filesystem (target_file fs) (delete path (backup_dir fs))).
Proof. intros Hentry. unfold Backup.unlink. py_unfold. simpl. by rewrite Hentry. Qed.

Lemma unlink_all (paths : list (string * node)) (fs : filesystem) :
  NoDup paths.*1 →
  (∀ f, f ∈ paths → backup_dir fs !! f.1 = Some f.2 ∧ is_file f.2) →
  foldr (λ f rest, Backup.unlink f.1;; rest) (mret ()) paths fs
  = (Return (),
     Filesystem (target_file fs)
       (foldl (λ d f, delete f.1 d) (backup_dir fs) paths)).
Proof.
  revert fs. induction paths as [|[k v] paths IH]; intros fs Hnd Hall.
  { by destruct fs. }
  rewrite fmap_cons in Hnd. apply NoDup_cons in Hnd as [Hk Hnd].
  destruct (Hall (k, v)) as [Hentry Hfile]; [left|]. simpl in *.
  destruct v as [content|]; [|done].
  unfold mbind, py_mbind, py_bind. rewrite (unlink_file k content fs Hentry).
  rewrite IH; [done|done|].
  intros f Hf. destruct (Hall f) as [Hf1 Hf2]; [by right|]. split; [|done].
  simpl. rewrite lookup_delete_ne; [done|].
  intros ->. apply Hk. by apply list_elem_of_fmap_2.
Qed.

Lemma lookup_delete_all (paths : list (string * node)) (d : gmap string node)
    (k : string) :
  foldl (λ d f, delete f.1 d) d paths !! k
  = if decide (k ∈ paths.*1) then None else d !! k.
Proof.
  revert d. induction paths as [|[k' v] paths IH]; intros d; [done|].
  rewrite fmap_cons. cbn [foldl fst]. rewrite IH.
  destruct (decide (k = k')) as [->|Hne].
  - rewrite lookup_delete_eq. rewrite (decide_True (P := k' ∈ k' :: _)) by left.
    by destruct (decide _).
  - rewrite lookup_delete_ne by done.
    destruct (decide (k ∈ paths.*1)) as [Hin|Hout].
    + by rewrite decide_True by (by right).
    + rewrite decide_False; [done|]. intros Hin.
      apply elem_of_cons in Hin as [?|?]; done.
Qed.

Lemma directory_files (dir : gmap string node) (k : string) :
  k ∈ (filter (λ f, is_file f.2) (map_to_list dir)).*1
  ↔ ∃ content, dir !! k = Some (File content).
Proof.
  rewrite list_elem_of_fmap. split.
  - intros ([k' v] & -> & Hf). apply list_elem_of_filter in Hf as [Hfile Hf].
    apply elem_of_map_to_list in Hf. simpl in *.
    destruct v as [content|]; [by exists content|done].
  - intros [content Hentry]. exists (k, File content). split; [done|].
    apply list_elem_of_filter. split; [done|]. by apply elem_of_map_to_list.
Qed.

Lemma directory_without_files (fs : filesystem) :
  (∀ k content, backup_dir fs !! k ≠ Some (File content)) →
  filter (λ f, is_file f.2) (map_to_list (backup_dir fs)) = [].
Proof.
  intros Hnone. apply filter_drops_all. intros [k v] Hf Hfile.
  apply elem_of_map_to_list in Hf. simpl in *.
  destruct v as [content|]; [by apply (Hnone k content)|done].
Qed.

Lemma clear_without_files (fs : filesystem) :
  (∀ k content, backup_dir fs !! k ≠ Some (File content)) →
  Backup.clear fs = (Raise (BackupError "No backups to clear"), fs).
Proof.
  intros Hnone. unfold Backup.clear. unfold mbind, py_mbind, py_bind, gets.
  by rewrite (directory_without_files fs Hnone).
Qed.

(** X14.  [clear] deletes the files of the backup directory and only
    them.  When no entry is a file, an empty directory or one that holds
    only sub-directories, it raises "No backups to clear" and changes
    nothing.  Otherwise it returns; every file entry is gone, every other
    entry and the store file are as they were; [list] then returns the
    empty sequence and a second [clear] raises. *)
Theorem backup_clear_spec (fs : filesystem) :
  ((∀ k content, backup_dir fs !! k ≠ Some (File content)) →
   Backup.clear fs = (Raise (BackupError "No backups to clear"), fs)) ∧
  ((∃ k content, backup_dir fs !! k = Some (File content)) →
   ∃ fs',
     Backup.clear fs = (Return (), fs') ∧
     target_file fs' = target_file fs ∧
     (∀ k, backup_dir fs' !! k =
           match backup_dir fs !! k with
           | Some (File _) => None
           | entry => entry
           end) ∧
     Backup.list fs' = (Return [], fs') ∧
     Backup.clear fs' = (Raise (BackupError "No backups to clear"), fs')).
Proof.
  split.
  - apply clear_without_files.
  - intros (k0 & content0 & Hentry0).
    set (files := filter (λ f, is_file f.2) (map_to_list (backup_dir fs))).
    set (fs' := Filesystem (target_file fs)
                  (foldl (λ d f, delete f.1 d) (backup_dir fs) files)).
    assert (∀ k, backup_dir fs' !! k =
                 match backup_dir fs !! k with
                 | Some (File _) => None
                 | entry => entry
                 end) as Hlookup.
    { intros k. simpl. rewrite lookup_delete_all.
      destruct (decide (k ∈ files.*1)) as [Hin|Hout].
      - apply directory_files in Hin as [content ->]. done.
      - destruct (backup_dir fs !! k) as [[content|]|] eqn:Hk; try done.
        destruct Hout. apply directory_files. by exists content. }
    assert (∀ k content, backup_dir fs' !! k ≠ Some (File content)) as Hnone.
    { intros k content. rewrite Hlookup.
      by destruct (backup_dir fs !! k) as [[?|]|]. }
    exists fs'. split; [|split; [done|split; [exact Hlookup|split]]].
    + assert ((k0, File content0) ∈ files) as Hfiles.
      { apply list_elem_of_filter. split; [done|]. by apply elem_of_map_to_list. }
      assert (foldr (λ f rest, Backup.unlink f.1;; rest) (mret ()) files fs
              = (Return (), fs')) as Hrun.
      { apply unlink_all.
        * unfold files. apply (sublist_NoDup _ (map_to_list (backup_dir fs)).*1).
          -- apply NoDup_fst_map_to_list.
          -- apply fmap_sublist, sublist_filter.
        * intros f' Hf'. apply list_elem_of_filter in Hf' as [Hfile Hf'].
          split; [|done]. destruct f'. by apply elem_of_map_to_list. }
      unfold Backup.clear. unfold mbind at 1, py_mbind, py_bind, gets. fold files.
      clearbody fs'. destruct files; [by apply elem_of_nil in Hfiles|exact Hrun].
    + unfold Backup.list, gets. by rewrite (directory_without_files fs' Hnone).
    + by apply clear_without_files.
Qed.

Lemma backup_clear_spec_witness :
  let fs := Filesystem (Some [x53])
              (<["sub" := Directory]> {[ "old.my.db" := File [x09] ]}) in
  ∃ fs',
    Backup.clear fs = (Return (), fs') ∧
    backup_dir fs' !! "sub" = Some Directory ∧
    backup_dir fs' !! "old.my.db" = None ∧
    Backup.clear fs' = (Raise (BackupError "No backups to clear"), fs').
Proof.
  intros fs.
  destruct (backup_clear_spec fs) as [_ Hfiles].
  destruct Hfiles as (fs' & Hclear & _ & Hlookup & _ & Hagain).
  - exists "old.my.db", [x09]. reflexivity.
  - exists fs'. split; [exact Hclear|]. split; [|split; [|exact Hagain]].
    + rewrite Hlookup. reflexivity.
    + rewrite Hlookup. reflexivity.
Defined.

(** ** [Backup.list] *)

(** X15.  [list] names the files of the directory, never its
    sub-directories: a name is listed exactly when it is a file's name
    without its last six characters.  When the target's base name has five
    characters, as the server's has, every backup that [create] wrote is
    listed under the name [create] returned. *)
Theorem backup_list_names (fs : filesystem) :
  ∃ names,
    Backup.list fs = (Return names, fs) ∧
    (∀ n, n ∈ names
          ↔ ∃ k content, backup_dir fs !! k = Some (File content) ∧ n = drop_last6 k) ∧
    (∀ target_name name content,
       String.length target_name = 5 →
       backup_dir fs !! Backup.backup_path target_name name = Some (File content) →
       fmt_name name ∈ names).
Proof.
  eexists. split; [reflexivity|].
  assert (∀ n, n ∈ (λ f : string * node, drop_last6 f.1)
                   <$> filter (λ f, is_file f.2) (map_to_list (backup_dir fs))
               ↔ ∃ k content,
                   backup_dir fs !! k = Some (File content) ∧ n = drop_last6 k)
    as Hnames.
  { intros n. rewrite list_elem_of_fmap. split.
    - intros ([k v] & -> & Hf). apply list_elem_of_filter in Hf as [Hfile Hf].
      apply elem_of_map_to_list in Hf. simpl in *.
      destruct v as [content|]; [by exists k, content|done].
    - intros (k & content & Hentry & ->). exists (k, File content).
      split; [done|]. apply list_elem_of_filter. split; [done|].
      by apply elem_of_map_to_list. }
  split; [exact Hnames|].
  intros target_name name content Hlen Hentry. apply Hnames.
  exists (Backup.backup_path target_name name), content. split; [done|].
  unfold Backup.backup_path. by rewrite drop_last6_suffix.
Qed.

Lemma backup_list_names_witness :
  ∃ names,
    Backup.list (Backup.create "my.db" 17 (Some "snap")
                   (Filesystem (Some [x53]) {[ "sub" := Directory ]})).2
      = (Return names,
         (Backup.create "my.db" 17 (Some "snap")
            (Filesystem (Some [x53]) {[ "sub" := Directory ]})).2) ∧
    "snap" ∈ names.
Proof.
  destruct (backup_list_names
              (Backup.create "my.db" 17 (Some "snap")
                 (Filesystem (Some [x53]) {[ "sub" := Directory ]})).2)
    as (names & Hlist & _ & Hcreated).
  exists names. split; [exact Hlist|].
  apply (Hcreated "my.db" (NameStr "snap") [x53]); reflexivity.
Defined.

(** * The tools *)

Lemma getitem_rule (my : MyContext.t) :
  MyContext.getitem "rule" my =
    (Return MyContext.RuleHandler, MyContext.Registry true (MyContext.conn my)).
Proof. by destruct my as [[] c]. Qed.

Lemma getitem_snippet (my : MyContext.t) :
  MyContext.getitem "snippet" my =
    (Return (MyContext.ResourceHandler Snippet),
     MyContext.Registry true (MyContext.conn my)).
Proof. by destruct my as [[] c]. Qed.

Lemma getitem_summary (my : MyContext.t) :
  MyContext.getitem "summary" my =
    (Return (MyContext.ResourceHandler Summary),
     MyContext.Registry true (MyContext.conn my)).
Proof. by destruct my as [[] c]. Qed.


(** ** The rule-setting tool *)

Lemma rule_set_raises_resource_error context policy rule db e db' :
  Rule.set context policy rule db = (Raise e, db') → ∃ msg, e = ResourceError msg.
Proof.
  unfold Rule.set. destruct (decide (policy ∉ _)) as [Hbad|Hok].
  { intros [= <- _]. by eexists. }
  apply dec_stable in Hok. py_unfold. simpl.
  destruct (filter _ (rules (working db))) as [|row sel] eqn:Hsel; simpl.
  - destruct (decide (Rule.check _)) as [_|Hn].
    2:{ destruct Hn. unfold Rule.check. simpl. by apply allowed_policy. }
    destruct (decide (Exists _ _)) as [Hex|_]; [|done].
    exfalso. apply Exists_exists in Hex as (r & Hr & Hc & Hk). simpl in *.
    eapply (filter_nil_not_elem_of _ _ r Hsel); [|done].
    split; [done|]. by apply sql_eq_is.
  - destruct (decide (rl_policy row = policy)); [intros [= <- _]; by eexists|].
    destruct (decide (Forall _ _)) as [_|Hn]; [done|].
    destruct Hn. apply Forall_forall. intros r _.
    unfold Rule.check. simpl. by apply allowed_policy.
Qed.

(** X17.  The rule-setting tool always answers and never writes an absent
    context.  On a table with unique keys it returns a result dict for
    every policy, rule and context, raising nothing; every row it leaves
    with a NULL context was there before; and when it reports success the
    rule is listed under the context the tool used, "me" when the caller
    gave none or the empty string. *)
Theorem rule_set_tool (policy rule : string) (context : option string)
    (my : MyContext.t) :
  NoDup (rule_key <$> rules (working (MyContext.conn my))) →
  ∃ result my',
    my_context_rule_set policy rule context my = (ToolReturn result, my') ∧
    (∀ r, r ∈ rules (working (MyContext.conn my')) → rl_context r = None →
          r ∈ rules (working (MyContext.conn my))) ∧
    ((∃ msg, result = succeeded msg) →
     ∃ entries,
       Rule.list (Some (or_me context)) false (MyContext.conn my')
         = (Return entries, MyContext.conn my') ∧
       <["rule" := rule]> {["policy" := policy]} ∈ entries).
Proof.
  intros Hnd. unfold my_context_rule_set. rewrite getitem_rule.
  unfold try_tool, MyContext.on_db. simpl.
  pose proof (rule_set_cases (Some (or_me context)) policy rule (MyContext.conn my))
    as Hcases.
  destruct (rule_set_post (Some (or_me context)) policy rule (MyContext.conn my) Hnd)
    as [[e He]|(msg & rows' & Hrun & _ & Hin)].
  - rewrite He in *. destruct (rule_set_raises_resource_error _ _ _ _ _ _ He)
      as [msg ->]. simpl.
    eexists _, _. split; [reflexivity|]. simpl. split; [done|].
    intros [msg' Heq]. apply (f_equal (.!! "success")) in Heq.
    unfold failed, succeeded in Heq.
    rewrite !lookup_insert_ne, !lookup_singleton_eq in Heq by done.
    discriminate Heq.
  - rewrite Hrun in *. simpl in *.
    eexists _, _. split; [reflexivity|]. simpl. split.
    + intros r Hr Hnull.
      destruct Hcases as [Hsame|[_ [Hupd|Hnew]]].
      * apply (f_equal (λ d, rules (working d))) in Hsame. simpl in Hsame.
        by rewrite Hsame in Hr.
      * apply (f_equal (λ d, rules (working d))) in Hupd. simpl in Hupd.
        rewrite Hupd in Hr. apply list_elem_of_fmap in Hr as (r0 & -> & Hr0).
        destruct (decide _) as [[_ Hc]|_]; [|done].
        simpl in Hnull. unfold sql_is in Hc. congruence.
      * apply (f_equal (λ d, rules (working d))) in Hnew. simpl in Hnew.
        rewrite Hnew in Hr. apply elem_of_app in Hr as [Hr|Hr]; [done|].
        apply list_elem_of_singleton in Hr as ->. discriminate Hnull.
    + intros _. eexists. split; [reflexivity|].
      apply list_elem_of_fmap. exists (RuleRow (Some (or_me context)) policy rule).
      split; [done|]. apply list_elem_of_filter.
      split; [by apply sql_eq_named|done].
Qed.

Lemma rule_set_tool_witness :
  ∃ result my' entries,
    my_context_rule_set "MUST" "do X" (Some "") (MyContext.Registry false fresh)
      = (ToolReturn result, my') ∧
    Rule.list (Some "me") false (MyContext.conn my')
      = (Return entries, MyContext.conn my') ∧
    <["rule" := "do X"]> {["policy" := "MUST"]} ∈ entries.
Proof.
  destruct (rule_set_tool "MUST" "do X" (Some "") (MyContext.Registry false fresh))
    as (result & my' & Htool & _ & Hlisted).
  - simpl. apply NoDup_nil_2.
  - destruct Hlisted as (entries & Hlist & Hin).
    + exists "New rule added". vm_compute in Htool. by injection Htool as <- _.
    + by exists result, my', entries.
Defined.

(** ** The snippet and summary tools *)

(** X18.  Round trip through the dispatch layer.  On a table with unique
    keys the set tool of a snippet or summary always reports success;
    reading the same context and key back through the resource handler
    returns a dict with exactly that content and MIME type; the remove tool
    then reports success, and asked again it reports the failure "not
    found" instead of raising. *)
Theorem resource_tools_round_trip (cls : resource_class)
    (context key content mime_type : string) (my : MyContext.t) :
  cls = Snippet ∨ cls = Summary →
  NoDup (resource_key <$> table (resource_table cls) (working (MyContext.conn my))) →
  ∃ msg my1 my2,
    tool_set (resource_name cls) context key content mime_type my
      = (ToolReturn (succeeded msg), my1) ∧
    my_context_get_resource context (resource_name cls) key my1
      = (Return (<["mime_type" := mime_type]> {["content" := content]}), my1) ∧
    tool_remove (resource_name cls) context key my1
      = (ToolReturn (succeeded (capitalize (resource_name cls) +:+ " '" +:+ context
                                +:+ "/" +:+ key +:+ "' removed successfully")),
         my2) ∧
    tool_remove (resource_name cls) context key my2
      = (ToolReturn (failed (capitalize (resource_name cls) +:+ " '" +:+ context
                             +:+ "/" +:+ key +:+ "' not found")),
         my2).
Proof.
  intros Hcls Hnd.
  assert (∀ my0, MyContext.getitem (resource_name cls) my0 =
                 (Return (MyContext.ResourceHandler cls),
                  MyContext.Registry true (MyContext.conn my0))) as Hitem.
  { intros my0. destruct Hcls as [-> | ->];
      [apply getitem_snippet|apply getitem_summary]. }
  assert (known_resource (resource_name cls)) as Hknown.
  { destruct Hcls as [-> | ->]; unfold known_resource; simpl.
    - right. left.
    - right. right. left. }
  destruct (resource_set_post cls (Some context) key content mime_type
              (MyContext.conn my) Hnd) as (msg' & rows1 & Hset' & Hnd1 & Hin1).
  set (db1' := let s := with_table (resource_table cls) rows1
                          (working (MyContext.conn my)) in Connection s s) in *.
  assert (table (resource_table cls) (working db1') = rows1) as Htab1
    by apply table_with_table.
  assert ((Some context, key) ∈ resource_key <$> table (resource_table cls) (working db1'))
    as Hkey1.
  { rewrite Htab1. by apply (list_elem_of_fmap_2 resource_key) in Hin1. }
  pose proof (resource_remove_present cls context key db1' Hkey1) as Hremove'.
  set (db2' := let s := with_table (resource_table cls)
                          (filter (λ r, resource_key r ≠ (Some context, key))
                             (table (resource_table cls) (working db1')))
                          (working db1') in Connection s s) in *.
  assert ((Some context, key)
          ∉ resource_key <$> table (resource_table cls) (working db2')) as Hgone'.
  { simpl. rewrite table_with_table. intros Hin.
    apply list_elem_of_fmap in Hin as (r & Hk & Hr).
    apply list_elem_of_filter in Hr as [Hne _]. by apply Hne. }
  exists msg', (MyContext.Registry true db1'), (MyContext.Registry true db2').
  split; [|split; [|split]].
  - unfold tool_set. rewrite Hitem. unfold try_tool, MyContext.on_db. simpl.
    by rewrite Hset'.
  - unfold my_context_get_resource. rewrite decide_False by (by intros []).
    unfold mbind, py_mbind, py_bind. rewrite Hitem.
    unfold MyContext.on_db, handler_get. simpl.
    rewrite (resource_get_found cls context key db1'
               (ResourceRow mime_type (Some context) key content));
      [done|by rewrite Htab1..|done].
  - unfold tool_remove, try_tool. unfold mbind, py_mbind, py_bind.
    rewrite Hitem. unfold MyContext.on_db, handler_remove. simpl.
    by rewrite Hremove'.
  - unfold tool_remove, try_tool. unfold mbind, py_mbind, py_bind.
    rewrite Hitem. unfold MyContext.on_db, handler_remove. simpl.
    by rewrite (resource_remove_missing cls (Some context) key db2').
Qed.

Lemma resource_tools_round_trip_witness :
  ∃ msg my1,
    my_context_snippet_set "me" "k" "v" "text/plain" (MyContext.Registry false fresh)
      = (ToolReturn (succeeded msg), my1) ∧
    my_context_get_resource "me" "snippet" "k" my1
      = (Return (<["mime_type" := "text/plain"]> {["content" := "v"]}), my1).
Proof.
  destruct (resource_tools_round_trip Snippet "me" "k" "v" "text/plain"
              (MyContext.Registry false fresh))
    as (msg & my1 & my2 & Hset & Hget & _).
  - left. reflexivity.
  - simpl. apply NoDup_nil_2.
  - exists msg, my1. split; [exact Hset|exact Hget].
Defined.

(** ** The backup tools *)

(** X19.  The restore tool can be undone.  Called with [backup_current],
    with the store file present, the named backup a file and the clock
    reading not yet used as a name, it first saves the store file under the
    clock reading and then restores the named backup; it reports both
    steps, and restoring the backup named by the clock reading brings the
    store file back to its bytes before the call. *)
Theorem restore_tool_keeps_current (time_ns : Z) (name : string)
    (current old : list byte) (fs : filesystem) :
  target_file fs = Some current →
  backup_dir fs !! Backup.backup_path MY_CONTEXT_DB_NAME (NameStr name)
    = Some (File old) →
  backup_dir fs !! Backup.backup_path MY_CONTEXT_DB_NAME (NameInt time_ns) = None →
  ∃ fs1,
    my_context_backup_restore time_ns name true fs =
      (ToolReturn
         (succeeded (("Backup created: " +:+ pretty time_ns) +:+ newline
                     +:+ ("Backup restored: " +:+ name))), fs1) ∧
    target_file fs1 = Some old ∧
    Backup.restore MY_CONTEXT_DB_NAME (NameInt time_ns) fs1 =
      (Return (), Filesystem (Some current) (backup_dir fs1)).
Proof.
  intros Htarget Hold Hfree.
  assert (Backup.backup_path MY_CONTEXT_DB_NAME (NameInt time_ns)
          ≠ Backup.backup_path MY_CONTEXT_DB_NAME (NameStr name)) as Hne
    by congruence.
  eexists. split; [|split].
  - unfold my_context_backup_restore, try_tool.
    unfold mbind at 1, py_mbind, py_bind.
    unfold mbind at 1, py_mbind, py_bind.
    rewrite (create_absent MY_CONTEXT_DB_NAME time_ns None fs current) by done.
    unfold mret at 1, py_mret, py_ret.
    unfold mbind at 1, py_mbind, py_bind.
    rewrite (restore_file MY_CONTEXT_DB_NAME (NameStr name) _ old).
    + reflexivity.
    + simpl. by rewrite lookup_insert_ne.
  - reflexivity.
  - apply restore_file. simpl. apply lookup_insert_eq.
Qed.

Lemma restore_tool_keeps_current_witness :
  let fs := Filesystem (Some [x53]) {[ "old.my.db" := File [x09] ]} in
  ∃ fs1,
    (my_context_backup_restore 17 "old" true fs).2 = fs1 ∧
    target_file fs1 = Some [x09] ∧
    Backup.restore MY_CONTEXT_DB_NAME (NameInt 17) fs1 =
      (Return (), Filesystem (Some [x53]) (backup_dir fs1)).
Proof.
  intros fs.
  destruct (restore_tool_keeps_current 17 "old" [x53] [x09] fs)
    as (fs1 & Htool & Hold & Hundo); [reflexivity..|].
  exists fs1. rewrite Htool. split; [reflexivity|]. split; [exact Hold|exact Hundo].
Defined.





(** ** The list handler's action suffix *)

(** X22.  The list handler includes content only for the suffix "all".
    For the snippet and summary resources, a name followed by ":" and an
    action without a colon is served as the handler's [list] for the
    context, with content exactly when the action is "all"; any other
    action is ignored, and the plain name lists without content.  The call
    opens the connection and leaves the rows alone. *)
Theorem list_resource_action (cls : resource_class) (context action : string)
    (my : MyContext.t) :
  cls = Snippet ∨ cls = Summary →
  contains ":" action = false →
  my_context_list_resource context (resource_name cls +:+ ":" +:+ action) my =
    ((PersistentResource.list cls (Some context) (bool_decide (action = "all"))
        (MyContext.conn my)).1,
     MyContext.Registry true (MyContext.conn my)) ∧
  my_context_list_resource context (resource_name cls) my =
    ((PersistentResource.list cls (Some context) false (MyContext.conn my)).1,
     MyContext.Registry true (MyContext.conn my)).
Proof.
  intros Hcls Haction.
  assert (∀ my0, MyContext.getitem (resource_name cls) my0 =
                 (Return (MyContext.ResourceHandler cls),
                  MyContext.Registry true (MyContext.conn my0))) as Hitem.
  { intros my0. destruct Hcls as [-> | ->];
      [apply getitem_snippet|apply getitem_summary]. }
  assert (known_resource (resource_name cls)) as Hknown.
  { destruct Hcls as [-> | ->]; unfold known_resource; simpl.
    - right. left.
    - right. right. left. }
  assert (contains ":" (resource_name cls) = false) as Hname
    by (by destruct Hcls as [-> | ->]).
  split.
  - unfold my_context_list_resource.
    change (resource_name cls +:+ ":" +:+ action)
      with (resource_name cls +:+ String ":"%char action).
    rewrite contains_separator, split_on_once by done.
    unfold mbind at 1, py_mbind, py_bind. unfold mret at 1, py_mret, py_ret.
    rewrite decide_False by (by intros []).
    unfold mbind, py_mbind, py_bind. rewrite Hitem.
    unfold MyContext.on_db, handler_list.
    replace (bool_decide (Some action = Some "all"))
      with (bool_decide (action = "all")); [done|].
    apply bool_decide_ext. split; [by intros ->|by intros [= ->]].
  - unfold my_context_list_resource. rewrite Hname.
    unfold mbind at 1, py_mbind, py_bind. unfold mret at 1, py_mret, py_ret.
    rewrite decide_False by (by intros []).
    unfold mbind, py_mbind, py_bind. by rewrite Hitem.
Qed.

Lemma list_resource_action_witness :
  let my := MyContext.Registry true
              (PersistentResource.set Snippet (Some "me") "k" "v" "text/plain" fresh).2 in
  (my_context_list_resource "me" "snippet:all" my).1 =
    Return [<["snippet" := "v"]> (<["mime_type" := "text/plain"]> {["key" := "k"]})] ∧
  (my_context_list_resource "me" "snippet:full" my).1 =
    Return [<["mime_type" := "text/plain"]> {["key" := "k"]}].
Proof.
  intros my. split.
  - destruct (list_resource_action Snippet "me" "all" my) as [Hsuffix _];
      [by left|reflexivity|].
    apply (f_equal fst) in Hsuffix. exact Hsuffix.
  - destruct (list_resource_action Snippet "me" "full" my) as [Hsuffix _];
      [by left|reflexivity|].
    apply (f_equal fst) in Hsuffix. exact Hsuffix.
Defined.

(** ** What a removal leaves alone *)

(** X23.  A removal takes out the rows of its own key only.  After
    [PersistentResource.remove] of (context, key), and after [Rule.remove]
    of (context, rule), whether the call returned or raised, a row with any
    other key is in the table exactly when it was there before. *)
Theorem remove_frame (db : connection) :
  (∀ cls context key r,
     resource_key r ≠ (context, key) →
     r ∈ table (resource_table cls)
           (working (PersistentResource.remove cls context key db).2)
     ↔ r ∈ table (resource_table cls) (working db)) ∧
  (∀ context rule r,
     rule_key r ≠ (context, rule) →
     r ∈ rules (working (Rule.remove context rule db).2)
     ↔ r ∈ rules (working db)).
Proof.
  split.
  - intros cls context key r Hne. rewrite resource_remove_state. simpl.
    rewrite table_with_table, list_elem_of_filter. split; [by intros [_ ?]|].
    intros Hr. split; [|done]. intros [Hc Hk]. apply Hne.
    apply sql_eq_is in Hc. unfold resource_key. by rewrite Hc, Hk.
  - intros context rule r Hne.
    destruct (rule_remove_post context rule db) as [[-> _]|[-> _]]; [done|].
    simpl. rewrite list_elem_of_filter. split; [by intros [_ ?]|done].
Qed.

Lemma remove_frame_witness :
  let db := (Rule.set (Some "me") "MAY" "do Y"
               (Rule.set (Some "me") "MUST" "do X" fresh).2).2 in
  RuleRow (Some "me") "MAY" "do Y"
    ∈ rules (working (Rule.remove (Some "me") "do X" db).2).
Proof.
  intros db. destruct (remove_frame db) as [_ Hrule].
  apply Hrule.
  - intros Heq. discriminate Heq.
  - simpl. right. left.
Defined.

(** ** Failures of the backup manager, as the tools report them *)


